(** * raycast-ocr: clipboard image acquisition and temporary-file cleanup

    A shallow embedding of [extensions/raycast-ocr/src/utils/clipboard.ts].
    The source file holds two revisions of the same three exported functions:

    - lines 1-103, embedded as [Module V1]: the destination path is
      interpolated into the AppleScript text and [cleanupTempFile] gates on
      the literal prefix [/tmp/raycast-ocr];
    - lines 104-218, embedded as [Module V2]: the destination path travels in
      the child's environment ([OCR_OUTPUT_PATH]) and [cleanupTempFile] gates
      on [/tmp/], on the absence of [..] and on [path.resolve].

    Strings are sequences of code units below 256 (Rocq's [string]); on that
    range [toLowerCase] and [trim] are modelled exactly.  Asynchronous
    functions are run to completion: a computation takes a [World] and gives
    the next [World] together with either a thrown error or a value. *)

From Stdlib Require Import Ascii String List Bool Arith Lia.
From stdpp Require Import base option list gmap strings fin_maps.

Set Default Proof Using "Type".

(** ** ECMAScript string primitives used by the source *)

Module JS.

(** [s.startsWith(p)] *)
Fixpoint startsWith (s p : string) {struct p} : bool :=
  match p with
  | EmptyString => true
  | String a p' =>
      match s with
      | EmptyString => false
      | String b s' => if Ascii.eqb a b then startsWith s' p' else false
      end
  end.

(** [s.includes(n)]: [n] starts at some position of [s]. *)
Fixpoint includes (s n : string) : bool :=
  startsWith s n ||
  match s with
  | EmptyString => false
  | String _ s' => includes s' n
  end.

(** [s.endsWith(t)]: some suffix of [s] is [t]. *)
Fixpoint endsWith (s t : string) : bool :=
  String.eqb s t ||
  match s with
  | EmptyString => false
  | String _ s' => endsWith s' t
  end.

(** Lower-casing of one code unit below 256: [A-Z] and the Latin-1 capitals
    U+00C0..U+00DE (the multiplication sign U+00D7 apart) move up by 32. *)
Definition lower_unit (c : ascii) : ascii :=
  let n := nat_of_ascii c in
  if ((65 <=? n) && (n <=? 90))
     || ((192 <=? n) && (n <=? 222) && negb (n =? 215))
  then ascii_of_nat (n + 32) else c.

(** [s.toLowerCase()] *)
Fixpoint toLowerCase (s : string) : string :=
  match s with
  | EmptyString => EmptyString
  | String c s' => String (lower_unit c) (toLowerCase s')
  end.

(** WhiteSpace and LineTerminator code units below 256:
    TAB, LF, VT, FF, CR, SP and NBSP. *)
Definition is_white (c : ascii) : bool :=
  let n := nat_of_ascii c in
  ((9 <=? n) && (n <=? 13)) || (n =? 32) || (n =? 160).

Fixpoint trimStart (s : string) : string :=
  match s with
  | EmptyString => EmptyString
  | String c s' => if is_white c then trimStart s' else s
  end.

Fixpoint trimEnd (s : string) : string :=
  match s with
  | EmptyString => EmptyString
  | String c s' =>
      match trimEnd s' with
      | EmptyString => if is_white c then EmptyString else String c EmptyString
      | t => String c t
      end
  end.

(** [s.trim()] *)
Definition trim (s : string) : string := trimEnd (trimStart s).

(** Truthiness of an optional string: [undefined] and [""] are falsy. *)
Definition truthy (o : option string) : option string :=
  match o with
  | Some EmptyString => None
  | _ => o
  end.

End JS.

(** ** Node's POSIX [path] module, as far as the source calls it *)

Module Path.

(** The pieces of a string between its slashes; never the empty list. *)
Fixpoint segments (s : string) : list string :=
  match s with
  | EmptyString => [EmptyString]
  | String c s' =>
      if Ascii.eqb c "/" then EmptyString :: segments s'
      else match segments s' with
           | seg :: rest => String c seg :: rest
           | [] => [String c EmptyString]
           end
  end.

Fixpoint unsegments (l : list string) : string :=
  match l with
  | [] => EmptyString
  | [a] => a
  | a :: rest => a +:+ "/" +:+ unsegments rest
  end.

(** [normalizeString]: empty and [.] segments vanish, [..] removes the
    segment before it; above the root [..] is kept only when
    [allowAboveRoot].  [stack] holds the result so far, last segment first. *)
Fixpoint normalizeString (allowAboveRoot : bool) (stack segs : list string)
  : list string :=
  match segs with
  | [] => rev stack
  | seg :: rest =>
      if String.eqb seg "" || String.eqb seg "." then
        normalizeString allowAboveRoot stack rest
      else if String.eqb seg ".." then
        match stack with
        | top :: below =>
            if String.eqb top ".."
            then normalizeString allowAboveRoot
                   (if allowAboveRoot then ".." :: stack else stack) rest
            else normalizeString allowAboveRoot below rest
        | [] =>
            normalizeString allowAboveRoot
              (if allowAboveRoot then [".."] else []) rest
        end
      else normalizeString allowAboveRoot (seg :: stack) rest
  end.

(** [path.normalize(p)] *)
Definition normalize (p : string) : string :=
  if String.eqb p "" then "." else
  let isAbsolute := JS.startsWith p "/" in
  let trailingSeparator := JS.endsWith p "/" in
  let body := unsegments (normalizeString (negb isAbsolute) [] (segments p)) in
  if String.eqb body "" then
    if isAbsolute then "/" else if trailingSeparator then "./" else "."
  else
    let body := if trailingSeparator then body +:+ "/" else body in
    if isAbsolute then "/" +:+ body else body.

(** [path.join(a, b)]: the non-empty arguments, put together with slashes
    and normalized. *)
Definition join (a b : string) : string :=
  match List.filter (fun s => negb (String.eqb s "")) [a; b] with
  | [] => "."
  | parts => normalize (unsegments parts)
  end.

(** [path.resolve(p)] in a process whose working directory is [cwd]
    (an absolute path). *)
Definition resolve (cwd p : string) : string :=
  let resolvedPath :=
    if JS.startsWith p "/" then p +:+ "/" else cwd +:+ "/" +:+ p +:+ "/" in
  "/" +:+ unsegments (normalizeString false [] (segments resolvedPath)).

End Path.

(** ** The file system the process sees

    A tree of directories, regular files and symbolic links, keyed by the
    canonical path of each entry (its segments from the root, which is a
    directory and has the key [[]]). *)

Inductive node :=
| Dir
| File (data : string)
| Link (target : string).

Module FS.

Definition is_dot (c : string) : bool := String.eqb c "" || String.eqb c ".".

(** Where a path starts: at the root when absolute, else at [cur]. *)
Definition origin (cur : list string) (p : string) : list string :=
  if JS.startsWith p "/" then [] else cur.

(** Kernel name lookup.  Every component but the last must be a directory
    or a link to one; links in the middle are always followed, a link in
    the last place only when [follow].  The result is the key of the entry
    named by the path; the entry itself may be missing. [fuel] bounds the
    number of components visited, links expanded. *)
Fixpoint namei (fuel : nat) (follow : bool) (fs : gmap (list string) node)
    (cur comps : list string) : option (list string) :=
  match fuel with
  | O => None
  | S fuel =>
      match comps with
      | [] => Some cur
      | c :: rest =>
          if is_dot c then namei fuel follow fs cur rest
          else if String.eqb c ".." then namei fuel follow fs (removelast cur) rest
          else
            let here := cur ++ [c] in
            match fs !! here with
            | Some Dir => namei fuel follow fs here rest
            | Some (Link t) =>
                match rest with
                | [] =>
                    if follow
                    then namei fuel follow fs (origin cur t) (Path.segments t)
                    else Some here
                | _ :: _ =>
                    namei fuel follow fs (origin cur t) (Path.segments t ++ rest)
                end
            | Some (File _) =>
                match rest with [] => Some here | _ :: _ => None end
            | None =>
                match rest with [] => Some here | _ :: _ => None end
            end
      end
  end.

(** The lookups of this model visit at most [budget] components; a path
    that needs more is outside the model and is not found. *)
Definition budget : nat := 128.

Definition locate (follow : bool) (fs : gmap (list string) node)
    (cwd p : string) : option (list string) :=
  if String.eqb p "" then None
  else namei budget follow fs (origin (List.filter (fun c => negb (is_dot c)) (Path.segments cwd)) p)
         (Path.segments p).

(** [realpath(3)]: the canonical path of an existing entry. *)
Definition realpath (fs : gmap (list string) node) (cwd p : string)
  : option string :=
  match locate true fs cwd p with
  | Some [] => Some "/"
  | Some key =>
      match fs !! key with
      | Some _ => Some ("/" +:+ Path.unsegments key)
      | None => None
      end
  | None => None
  end.

Definition exists_at (fs : gmap (list string) node) (cwd p : string) : bool :=
  match realpath fs cwd p with Some _ => true | None => false end.

(** [unlink(2)]: removes the entry itself, never what a link points to;
    fails on a missing entry and on a directory. *)
Definition unlink (fs : gmap (list string) node) (cwd p : string)
  : option (gmap (list string) node) :=
  match locate false fs cwd p with
  | Some key =>
      match fs !! key with
      | Some (File _) | Some (Link _) => Some (delete key fs)
      | Some Dir | None => None
      end
  | None => None
  end.

(** Writing a whole file: creates or replaces a regular file, through a
    final link; fails when the parent is missing or the entry is a
    directory. *)
Definition writeFile (fs : gmap (list string) node) (cwd p data : string)
  : option (gmap (list string) node) :=
  match locate true fs cwd p with
  | Some [] => None
  | Some key =>
      match fs !! key with
      | Some Dir => None
      | Some (File _) | Some (Link _) | None => Some (<[key := File data]> fs)
      end
  | None => None
  end.

End FS.

(** ** The world outside the three functions *)

(** A rejected promise or a thrown value; the source never inspects it. *)
Inductive exn := Error (message : string).

(** What [Clipboard.read()] of [@raycast/api] resolves to. *)
Record ClipboardContent := {
  text : string;
  file : option string;
  html : option string
}.

(** The calls that leave the process, in the order they are made. *)
Inductive event :=
| ClipboardRead
| WriteFile (path data : string)
| ExecFile (command : string) (args : list string) (child_env : gmap string string)
| Unlink (path : string)
| ConsoleError (message : string).

Record World := {
  fs : gmap (list string) node;
  cwd : string;
  env : gmap string string;
  (** how the pending [Clipboard.read()] settles *)
  clipboard : exn + ClipboardContent;
  (** the values [randomUUID()] will give, and how many were drawn *)
  uuid_at : nat -> string;
  uuid_drawn : nat;
  (** what a child process does to the files, and how the awaited
      [execFile] call settles: it rejects for a failed launch, a non-zero
      exit or an output beyond [maxBuffer] (1 MiB unless set, and the source
      never sets it), else it resolves with the standard output *)
  child : string -> list string -> gmap string string ->
          gmap (list string) node -> gmap (list string) node * (exn + string);
  (** file-system calls that fail for reasons outside the tree (permissions,
      a full disk, an I/O error) *)
  denied : event -> bool;
  trace : list event
}.

Definition with_fs (f : gmap (list string) node) (w : World) : World :=
  {| fs := f; cwd := cwd w; env := env w; clipboard := clipboard w;
     uuid_at := uuid_at w; uuid_drawn := uuid_drawn w; child := child w;
     denied := denied w; trace := trace w |}.

Definition record (e : event) (w : World) : World :=
  {| fs := fs w; cwd := cwd w; env := env w; clipboard := clipboard w;
     uuid_at := uuid_at w; uuid_drawn := uuid_drawn w; child := child w;
     denied := denied w; trace := trace w ++ [e] |}.

Definition draw (w : World) : World :=
  {| fs := fs w; cwd := cwd w; env := env w; clipboard := clipboard w;
     uuid_at := uuid_at w; uuid_drawn := S (uuid_drawn w); child := child w;
     denied := denied w; trace := trace w |}.

(** ** Awaited computations: state and exceptions *)

Definition M (A : Type) : Type := World -> World * (exn + A).

Definition ret {A} (a : A) : M A := fun w => (w, inr a).

Definition throw {A} (e : exn) : M A := fun w => (w, inl e).

Definition bind {A B} (m : M A) (k : A -> M B) : M B :=
  fun w =>
    match m w with
    | (w', inr a) => k a w'
    | (w', inl e) => (w', inl e)
    end.

(** [try { body } catch (e) { handler }] *)
Definition try_catch {A} (body : M A) (handler : exn -> M A) : M A :=
  fun w =>
    match body w with
    | (w', inl e) => handler e w'
    | r => r
    end.

(** [try { body } finally { fin }]: [fin] runs however [body] ends, and the
    way [body] ended stands unless [fin] itself throws. *)
Definition try_finally {A} (body : M A) (fin : M unit) : M A :=
  fun w =>
    match body w with
    | (w', r) =>
        match fin w' with
        | (w'', inr _) => (w'', r)
        | (w'', inl e) => (w'', inl e)
        end
    end.

Declare Scope js_scope.
Delimit Scope js_scope with js.
Notation "x <- c ;; k" := (bind c (fun x => k))
  (at level 100, c at next level, right associativity) : js_scope.
Notation "c ;;; k" := (bind c (fun _ => k))
  (at level 100, right associativity) : js_scope.
Open Scope js_scope.

(** ** Host and platform calls *)

(** [await Clipboard.read()] *)
Definition Clipboard_read : M ClipboardContent :=
  fun w => (record ClipboardRead w, clipboard w).

(** [randomUUID()] *)
Definition randomUUID : M string :=
  fun w => (draw w, inr (uuid_at w (uuid_drawn w))).

(** [process.env] *)
Definition process_env : M (gmap string string) :=
  fun w => (w, inr (env w)).

(** [path.resolve(p)] reads the working directory of the process. *)
Definition path_resolve (p : string) : M string :=
  fun w => (w, inr (Path.resolve (cwd w) p)).

(** [await writeFile(p, data)] *)
Definition writeFile (p data : string) : M unit :=
  fun w =>
    let w1 := record (WriteFile p data) w in
    if denied w (WriteFile p data) then (w1, inl (Error "EACCES"))
    else match FS.writeFile (fs w) (cwd w) p data with
         | Some f => (with_fs f w1, inr tt)
         | None => (w1, inl (Error "ENOENT"))
         end.

(** [await unlink(p)] *)
Definition unlink (p : string) : M unit :=
  fun w =>
    let w1 := record (Unlink p) w in
    if denied w (Unlink p) then (w1, inl (Error "EACCES"))
    else match FS.unlink (fs w) (cwd w) p with
         | Some f => (with_fs f w1, inr tt)
         | None => (w1, inl (Error "ENOENT"))
         end.

(** [const { stdout } = await execFileAsync(command, args, { env })]: the
    arguments are handed over one by one, no shell reads them.  Without
    options the child inherits [process.env].  Whether the call resolves or
    rejects, and with what, is the [child] of the world: every reason Node
    has to reject (launch, exit status, [maxBuffer]) is an error there. *)
Definition execFileAsync (command : string) (args : list string)
    (options_env : option (gmap string string)) : M string :=
  fun w =>
    let e := match options_env with Some e => e | None => env w end in
    let w1 := record (ExecFile command args e) w in
    match child w command args e (fs w) with
    | (f, r) => (with_fs f w1, r)
    end.

(** [console.error(message, error)] *)
Definition console_error (message : string) : M unit :=
  fun w => (record (ConsoleError message) w, inr tt).

(** Characters of the script text that a Rocq literal cannot hold as one
    code unit: line feed, the double quote and the two guillemets. *)
Definition LF : string := String (ascii_of_nat 10) EmptyString.
Definition DQ : string := String (ascii_of_nat 34) EmptyString.
Definition LAQUO : string := String (ascii_of_nat 171) EmptyString.
Definition RAQUO : string := String (ascii_of_nat 187) EmptyString.

(** ** Parts the two revisions share word for word *)

(** [imageExtensions] (lines 22 and 125) *)
Definition imageExtensions : list string :=
  [".png"; ".jpg"; ".jpeg"; ".gif"; ".bmp"; ".tiff"; ".heic"].

(** [imageExtensions.some((ext) => filePath.toLowerCase().endsWith(ext))] *)
Definition isImage (filePath : string) : bool :=
  existsb (fun ext => JS.endsWith (JS.toLowerCase filePath) ext) imageExtensions.

(** [takeScreenshot] (lines 78-85 and 184-191) *)
Definition takeScreenshot : M string :=
  u <- randomUUID ;;
  let tempPath := Path.join "/tmp" ("raycast-ocr-screenshot-" +:+ u +:+ ".png") in
  _ <- execFileAsync "/usr/sbin/screencapture" ["-i"; tempPath] None ;;
  ret tempPath.

(** ** Identifiers and names *)

Fixpoint all_units (P : ascii -> bool) (s : string) : bool :=
  match s with
  | EmptyString => true
  | String c s' => P c && all_units P s'
  end.

(** A lower-case hexadecimal digit or a hyphen. *)
Definition uuid_unit (c : ascii) : bool :=
  let n := nat_of_ascii c in
  ((48 <=? n) && (n <=? 57)) || ((97 <=? n) && (n <=? 102)) || (n =? 45).

(** The shape of what [randomUUID()] returns: 36 units, hexadecimal digits
    with hyphens after the 8th, 12th, 16th and 20th digit. *)
Definition is_uuid (u : string) : bool :=
  (String.length u =? 36) && all_units uuid_unit u &&
  forallb (fun i => match String.get i u with
                    | Some c => Ascii.eqb c "-"
                    | None => false
                    end) [8; 13; 18; 23].

Definition not_slash (c : ascii) : bool := negb (Ascii.eqb c "/").
Definition not_dot (c : ascii) : bool := negb (Ascii.eqb c ".").

(** The two paths a run of the export block generates, from the first and
    the second identifier drawn. *)
Definition tempPath_of (u : string) : string :=
  Path.join "/tmp" ("raycast-ocr-" +:+ u +:+ ".png").

Definition scriptPath_of (u : string) : string :=
  Path.join "/tmp" ("ocr-script-" +:+ u +:+ ".applescript").

(** The path [takeScreenshot] generates from the identifier it draws. *)
Definition screenshotPath_of (u : string) : string :=
  Path.join "/tmp" ("raycast-ocr-screenshot-" +:+ u +:+ ".png").

(** The first and the second identifier a run draws from [w]. *)
Definition first_id (w : World) : string := uuid_at w (uuid_drawn w).
Definition second_id (w : World) : string := uuid_at w (S (uuid_drawn w)).

(** [unlink] under [try]/[catch] with the logging handler: what both
    revisions do with a path that has passed their gates (lines 97-102 and
    212-217). *)
Definition guarded_unlink (filePath : string) : M unit :=
  try_catch (unlink filePath)
    (fun error => console_error ("Failed to cleanup temp file: " +:+ filePath)).

(** ** First revision (lines 1-103) *)

Module V1.

(** [cleanupTempFile] (lines 91-103) *)
Definition cleanupTempFile (filePath : string) : M unit :=
  if negb (JS.startsWith filePath "/tmp/raycast-ocr") then ret tt
  else
    try_catch (unlink filePath)
      (fun error => console_error ("Failed to cleanup temp file: " +:+ filePath)).

(** The template literal of lines 37-46: [tempPath] is spliced between
    double quotes. *)
Definition script (tempPath : string) : string :=
  "set theFile to POSIX file " +:+ DQ +:+ tempPath +:+ DQ +:+ LF +:+
  "try" +:+ LF +:+
  "  set imageData to the clipboard as " +:+ LAQUO +:+ "class PNGf" +:+ RAQUO +:+ LF +:+
  "  set fileRef to open for access theFile with write permission" +:+ LF +:+
  "  write imageData to fileRef" +:+ LF +:+
  "  close access fileRef" +:+ LF +:+
  "  return " +:+ DQ +:+ "success" +:+ DQ +:+ LF +:+
  "on error" +:+ LF +:+
  "  return " +:+ DQ +:+ "no_image" +:+ DQ +:+ LF +:+
  "end try".

(** The guarded block of lines 32-71. *)
Definition exportClipboardImage : M (option string) :=
  try_catch
    (u1 <- randomUUID ;;
     let tempPath := Path.join "/tmp" ("raycast-ocr-" +:+ u1 +:+ ".png") in
     u2 <- randomUUID ;;
     let scriptPath := Path.join "/tmp" ("ocr-script-" +:+ u2 +:+ ".applescript") in
     _ <- writeFile scriptPath (script tempPath) ;;
     try_finally
       (stdout <- execFileAsync "osascript" [scriptPath] None ;;
        if String.eqb (JS.trim stdout) "success" then
          _ <- cleanupTempFile scriptPath ;;
          ret (Some tempPath)
        else
          _ <- cleanupTempFile scriptPath ;;
          ret None)
       (try_catch (cleanupTempFile scriptPath) (fun _ => ret tt)))
    (fun _ => ret None).

(** The two awaited calls of the block that can reject, as made by a run
    that enters the block in [w]: line 48, and line 51 in the world [w3]
    that line 48 leaves. *)
Definition write_step (w : World) : World * (exn + unit) :=
  writeFile (scriptPath_of (second_id w)) (script (tempPath_of (first_id w)))
    (draw (draw w)).

Definition run_step (w w3 : World) : World * (exn + string) :=
  execFileAsync "osascript" [scriptPath_of (second_id w)] None w3.

(** [getClipboardImagePath] (lines 14-72); [null] is [None]. *)
Definition getClipboardImagePath : M (option string) :=
  clipboardContent <- Clipboard_read ;;
  match JS.truthy (file clipboardContent) with
  | Some filePath =>
      if isImage filePath then ret (Some filePath) else exportClipboardImage
  | None => exportClipboardImage
  end.

End V1.

(** ** Second revision (lines 104-218) *)

Module V2.

(** [cleanupTempFile] (lines 197-218) *)
Definition cleanupTempFile (filePath : string) : M unit :=
  let tmpDir := "/tmp/" in
  if negb (JS.startsWith filePath tmpDir) || JS.includes filePath ".." then ret tt
  else
    resolvedPath <- path_resolve filePath ;;
    resolvedTmpDir <- path_resolve tmpDir ;;
    if negb (JS.startsWith resolvedPath resolvedTmpDir) then ret tt
    else
      try_catch (unlink filePath)
        (fun error => console_error ("Failed to cleanup temp file: " +:+ filePath)).

(** The template literal of lines 140-150: no hole in it. *)
Definition script : string :=
  "set outputFile to (system attribute " +:+ DQ +:+ "OCR_OUTPUT_PATH" +:+ DQ +:+ ")" +:+ LF +:+
  "set theFile to POSIX file outputFile" +:+ LF +:+
  "try" +:+ LF +:+
  "  set imageData to the clipboard as " +:+ LAQUO +:+ "class PNGf" +:+ RAQUO +:+ LF +:+
  "  set fileRef to open for access theFile with write permission" +:+ LF +:+
  "  write imageData to fileRef" +:+ LF +:+
  "  close access fileRef" +:+ LF +:+
  "  return " +:+ DQ +:+ "success" +:+ DQ +:+ LF +:+
  "on error" +:+ LF +:+
  "  return " +:+ DQ +:+ "no_image" +:+ DQ +:+ LF +:+
  "end try".

(** The guarded block of lines 135-177. *)
Definition exportClipboardImage : M (option string) :=
  try_catch
    (u1 <- randomUUID ;;
     let tempPath := Path.join "/tmp" ("raycast-ocr-" +:+ u1 +:+ ".png") in
     u2 <- randomUUID ;;
     let scriptPath := Path.join "/tmp" ("ocr-script-" +:+ u2 +:+ ".applescript") in
     _ <- writeFile scriptPath script ;;
     try_finally
       (parent_env <- process_env ;;
        stdout <- execFileAsync "osascript" [scriptPath]
                    (Some (<["OCR_OUTPUT_PATH" := tempPath]> parent_env)) ;;
        if String.eqb (JS.trim stdout) "success" then
          _ <- cleanupTempFile scriptPath ;;
          ret (Some tempPath)
        else
          _ <- cleanupTempFile scriptPath ;;
          ret None)
       (try_catch (cleanupTempFile scriptPath) (fun _ => ret tt)))
    (fun _ => ret None).

(** The two awaited calls of the block that can reject: line 152, and
    lines 155-157 in the world [w3] that line 152 leaves. *)
Definition write_step (w : World) : World * (exn + unit) :=
  writeFile (scriptPath_of (second_id w)) script (draw (draw w)).

Definition run_step (w w3 : World) : World * (exn + string) :=
  execFileAsync "osascript" [scriptPath_of (second_id w)]
    (Some (<["OCR_OUTPUT_PATH" := tempPath_of (first_id w)]> (env w3))) w3.

(** [getClipboardImagePath] (lines 117-178) *)
Definition getClipboardImagePath : M (option string) :=
  clipboardContent <- Clipboard_read ;;
  match JS.truthy (file clipboardContent) with
  | Some filePath =>
      if isImage filePath then ret (Some filePath) else exportClipboardImage
  | None => exportClipboardImage
  end.

End V2.

(** ** The allow-list as the specification words it

    The extension of a path is the text after its last dot; it is allowed
    when, lower-cased, it is one of png, jpg, jpeg, gif, bmp, tiff, heic. *)

Fixpoint extension (s : string) : option string :=
  match s with
  | EmptyString => None
  | String c s' =>
      match extension s' with
      | Some e => Some e
      | None => if Ascii.eqb c "." then Some s' else None
      end
  end.

Definition allowList : list string :=
  ["png"; "jpg"; "jpeg"; "gif"; "bmp"; "tiff"; "heic"].

Definition allowed_extension (p : string) : bool :=
  match extension p with
  | Some e => existsb (String.eqb (JS.toLowerCase e)) allowList
  | None => false
  end.

(** The clipboard read succeeded and did not settle the call: the descriptor
    has no usable file path, or one whose extension is not allowed. *)
Definition reaches_export (w : World) : bool :=
  match clipboard w with
  | inr c =>
      match JS.truthy (file c) with
      | Some filePath => negb (isImage filePath)
      | None => true
      end
  | inl _ => false
  end.

(** The texts handed to [writeFile] in a trace, in order. *)
Definition written (t : list event) : list string :=
  flat_map (fun e => match e with WriteFile _ data => [data] | _ => [] end) t.

(** The paths handed to [unlink] in a trace, in order. *)
Definition unlinked (t : list event) : list string :=
  flat_map (fun e => match e with Unlink p => [p] | _ => [] end) t.

(** ** Concrete worlds *)

Definition uuid_a : string := "3f2b8c1e-9d4a-4e7b-8a6f-0c1d2e3f4a5b".
Definition uuid_b : string := "7a1c9e2d-5b3f-4c8a-9e0d-6f5e4d3c2b1a".
Definition uuid_c : string := "c0ffee00-1234-4abc-8def-0123456789ab".

Definition no_file : ClipboardContent :=
  {| text := ""; file := None; html := None |}.

Definition copied_file (p : string) : ClipboardContent :=
  {| text := p; file := Some p; html := None |}.

Definition world_of (f : gmap (list string) node) (c : exn + ClipboardContent)
    (ids : list string)
    (ch : string -> list string -> gmap string string ->
          gmap (list string) node -> gmap (list string) node * (exn + string))
    (dn : event -> bool) : World :=
  {| fs := f; cwd := "/Users/me"; env := {[ "HOME" := "/Users/me" ]};
     clipboard := c; uuid_at := fun n => nth n ids uuid_c; uuid_drawn := 0;
     child := ch; denied := dn; trace := [] |}.

(** A machine with an empty temporary directory. *)
Definition tmp_tree : gmap (list string) node := {[ ["tmp"] := Dir ]}.

(** A child that touches no file and prints [out]. *)
Definition prints (out : string)
  : string -> list string -> gmap string string ->
    gmap (list string) node -> gmap (list string) node * (exn + string) :=
  fun _ _ _ f => (f, inr out).

(** A child that stores a regular file under [key] and prints [out]. *)
Definition stores (key : list string) (out : string)
  : string -> list string -> gmap string string ->
    gmap (list string) node -> gmap (list string) node * (exn + string) :=
  fun _ _ _ f => (<[key := File "PNG"]> f, inr out).

(** A child that cannot be launched. *)
Definition fails_to_launch
  : string -> list string -> gmap string string ->
    gmap (list string) node -> gmap (list string) node * (exn + string) :=
  fun _ _ _ f => (f, inl (Error "spawn ENOENT")).

Definition nothing_denied : event -> bool := fun _ => false.

Definition writes_denied : event -> bool :=
  fun e => match e with WriteFile _ _ => true | _ => false end.

(** The clipboard holds text only; the interpreter reports [no_image]. *)
Definition world_no_image : World :=
  world_of tmp_tree (inr no_file) [uuid_a; uuid_b]
    (prints ("no_image" +:+ LF)) nothing_denied.

(** The same machine with other identifiers drawn. *)
Definition world_no_image' : World :=
  world_of tmp_tree (inr no_file) [uuid_c; uuid_b]
    (prints ("no_image" +:+ LF)) nothing_denied.

(** The clipboard holds image bytes; the interpreter exports them. *)
Definition world_image : World :=
  world_of tmp_tree (inr no_file) [uuid_a; uuid_b]
    (stores ["tmp"; "raycast-ocr-" +:+ uuid_a +:+ ".png"] ("success" +:+ LF))
    nothing_denied.

Definition world_no_interpreter : World :=
  world_of tmp_tree (inr no_file) [uuid_a; uuid_b] fails_to_launch nothing_denied.

Definition world_read_only : World :=
  world_of tmp_tree (inr no_file) [uuid_a; uuid_b]
    (prints ("success" +:+ LF)) writes_denied.

Definition world_clipboard_broken : World :=
  world_of tmp_tree (inl (Error "clipboard unavailable")) [uuid_a; uuid_b]
    (prints ("success" +:+ LF)) nothing_denied.

Definition world_copied (p : string) : World :=
  world_of tmp_tree (inr (copied_file p)) [uuid_a; uuid_b]
    (prints ("no_image" +:+ LF)) nothing_denied.

(** The user completes the capture: the utility stores the picture. *)
Definition world_capture_done : World :=
  world_of tmp_tree (inr no_file) [uuid_a]
    (stores ["tmp"; "raycast-ocr-screenshot-" +:+ uuid_a +:+ ".png"] "")
    nothing_denied.

(** The user cancels the capture: the utility ends without a file. *)
Definition world_capture_cancelled : World :=
  world_of tmp_tree (inr no_file) [uuid_a] (prints "") nothing_denied.

(** A machine where somebody planted a directory and a link under [/tmp]. *)
Definition planted_tree : gmap (list string) node :=
  {[ ["tmp"] := Dir;
     ["tmp"; "raycast-ocr-x"] := Dir;
     ["tmp"; "raycast-ocr-link"] := Link "/etc";
     ["tmp"; "notes.txt"] := File "mine";
     ["etc"] := Dir;
     ["etc"; "passwd"] := File "root" ]}.

Definition world_planted : World :=
  world_of planted_tree (inr no_file) [uuid_a; uuid_b]
    (prints ("no_image" +:+ LF)) nothing_denied.

(** ** Names directly under the temporary directory *)

(** A single path component: no slash in it, and not empty, [.] or [..]. *)
Definition plain_name (n : string) : bool :=
  all_units not_slash n && negb (String.eqb n "") &&
  negb (String.eqb n ".") && negb (String.eqb n "..").

(** The file names the three functions generate from an identifier. *)
Definition image_name (u : string) : string := "raycast-ocr-" +:+ u +:+ ".png".
Definition script_name (u : string) : string :=
  "ocr-script-" +:+ u +:+ ".applescript".
Definition screenshot_name (u : string) : string :=
  "raycast-ocr-screenshot-" +:+ u +:+ ".png".

(** What [unlink(2)] can remove: a regular file or a link. *)
Definition removable (o : option node) : bool :=
  match o with
  | Some (File _) | Some (Link _) => true
  | Some Dir | None => false
  end.

Definition is_dir (o : option node) : bool :=
  match o with
  | Some Dir => true
  | _ => false
  end.

(** How the capture utility ends when [takeScreenshot] starts it in [w]
    (line 82): the tree it leaves and its output or error. *)
Definition captured (w : World)
  : gmap (list string) node * (exn + string) :=
  child w "/usr/sbin/screencapture" ["-i"; screenshotPath_of (first_id w)]
    (env w) (fs w).

(** The text both revisions hand to [console.error] (lines 101 and 216). *)
Definition cleanup_message (filePath : string) : string :=
  "Failed to cleanup temp file: " +:+ filePath.

(** Neither a double quote nor a backslash: the two code units that would
    end or escape an AppleScript string literal. *)
Definition literal_safe (c : ascii) : bool :=
  negb (Ascii.eqb c (ascii_of_nat 34)) && negb (Ascii.eqb c (ascii_of_nat 92)).

(** The processes started in a trace, in order: command, argument array
    and environment of each. *)
Definition started (t : list event)
  : list (string * list string * gmap string string) :=
  flat_map (fun e => match e with
                     | ExecFile c a e => [(c, a, e)]
                     | _ => []
                     end) t.

Fixpoint count_units (P : ascii -> bool) (s : string) : nat :=
  match s with
  | EmptyString => 0
  | String c s' => (if P c then 1 else 0) + count_units P s'
  end.

(** The world the interpreter leaves in a run of the second revision that
    enters the export block in [w]. *)
Definition V2_after_run (w : World) : World :=
  fst (V2.run_step w (fst (V2.write_step w))).

(** A machine on which an exported picture lies in the temporary directory. *)
Definition exported_tree : gmap (list string) node :=
  {[ ["tmp"] := Dir;
     ["tmp"; image_name uuid_a] := File "PNG";
     ["tmp"; screenshot_name uuid_a] := File "PNG";
     ["tmp"; "notes.txt"] := File "mine" ]}.

Definition world_exported : World :=
  world_of exported_tree (inr no_file) [uuid_b; uuid_c]
    (prints ("no_image" +:+ LF)) nothing_denied.

Definition unlinks_denied : event -> bool :=
  fun e => match e with Unlink _ => true | _ => false end.

(** The same machine with a temporary directory nobody may delete from. *)
Definition world_sticky : World :=
  world_of exported_tree (inr no_file) [uuid_b; uuid_c]
    (prints ("no_image" +:+ LF)) unlinks_denied.

(** The capture utility is missing. *)
Definition world_no_capture : World :=
  world_of tmp_tree (inr no_file) [uuid_a] fails_to_launch nothing_denied.

(** The interpreter pads its answer with blanks and a line feed. *)
Definition world_padded : World :=
  world_of tmp_tree (inr no_file) [uuid_a; uuid_b]
    (stores ["tmp"; image_name uuid_a] ("  success " +:+ LF))
    nothing_denied.

(** * Facts *)

(** ** The primitives on small inputs *)

Example segments_tmp : Path.segments "/tmp/a.png" = [""; "tmp"; "a.png"].
Proof. reflexivity. Qed.

Example join_tmp :
  Path.join "/tmp" "raycast-ocr-x.png" = "/tmp/raycast-ocr-x.png".
Proof. reflexivity. Qed.

Example join_normalizes : Path.join "/tmp" "a/../../etc" = "/etc".
Proof. reflexivity. Qed.

Example resolve_tmpdir : Path.resolve "/Users/me" "/tmp/" = "/tmp".
Proof. reflexivity. Qed.

Example resolve_relative : Path.resolve "/Users/me" "notes/../a.txt" = "/Users/me/a.txt".
Proof. reflexivity. Qed.

Example resolve_parents :
  Path.resolve "/" "/tmp/a/../../etc/passwd" = "/etc/passwd".
Proof. reflexivity. Qed.

Example trim_success : JS.trim (" success" +:+ LF) = "success".
Proof. reflexivity. Qed.

Example trim_inner_space : JS.trim "suc cess" = "suc cess".
Proof. reflexivity. Qed.

Example lower_case_extension : isImage "/Users/me/Pictures/Cat.PNG" = true.
Proof. reflexivity. Qed.

Example text_file_is_no_image : isImage "/Users/me/notes.txt" = false.
Proof. reflexivity. Qed.

Example uuid_a_is_uuid : is_uuid uuid_a = true.
Proof. reflexivity. Qed.

Example realpath_through_link :
  FS.realpath planted_tree "/" "/tmp/raycast-ocr-link/passwd" = Some "/etc/passwd".
Proof. vm_compute. reflexivity. Qed.


(** ** Strings *)

Section StringFacts.

Lemma app_String c (a b : string) : String c a +:+ b = String c (a +:+ b).
Proof. reflexivity. Qed.

Lemma app_assoc_s (a b c : string) : (a +:+ b) +:+ c = a +:+ (b +:+ c).
Proof.
  induction a as [|x a IH]; [reflexivity|].
  rewrite !app_String. f_equal. exact IH.
Qed.

Lemma all_units_app P (a b : string) :
  all_units P (a +:+ b) = all_units P a && all_units P b.
Proof.
  induction a as [|c a IH]; [reflexivity|].
  rewrite app_String. cbn [all_units]. rewrite IH. apply andb_assoc.
Qed.

Lemma all_units_weaken (P Q : ascii -> bool) s :
  (forall c, P c = true -> Q c = true) ->
  all_units P s = true -> all_units Q s = true.
Proof.
  intros HPQ. induction s as [|c s IH]; [reflexivity|].
  cbn [all_units]. rewrite !andb_true_iff. intros [Hc Hs]. auto.
Qed.

Lemma uuid_unit_not_slash c : uuid_unit c = true -> not_slash c = true.
Proof. destruct c as [[] [] [] [] [] [] [] []]; vm_compute; congruence. Qed.

Lemma uuid_unit_not_dot c : uuid_unit c = true -> not_dot c = true.
Proof. destruct c as [[] [] [] [] [] [] [] []]; vm_compute; congruence. Qed.

Lemma is_uuid_units u : is_uuid u = true -> all_units uuid_unit u = true.
Proof. unfold is_uuid. rewrite !andb_true_iff. tauto. Qed.

Lemma is_uuid_slash_free u : is_uuid u = true -> all_units not_slash u = true.
Proof.
  intros H. apply (all_units_weaken uuid_unit); [apply uuid_unit_not_slash|].
  now apply is_uuid_units.
Qed.

Lemma is_uuid_dot_free u : is_uuid u = true -> all_units not_dot u = true.
Proof.
  intros H. apply (all_units_weaken uuid_unit); [apply uuid_unit_not_dot|].
  now apply is_uuid_units.
Qed.

Lemma startsWith_app (p r : string) : JS.startsWith (p +:+ r) p = true.
Proof.
  induction p as [|c p IH]; [reflexivity|].
  rewrite app_String. cbn [JS.startsWith]. rewrite Ascii.eqb_refl. exact IH.
Qed.

Lemma startsWith_inv (s p : string) :
  JS.startsWith s p = true -> exists r, s = p +:+ r.
Proof.
  revert s. induction p as [|c p IH]; intros s H.
  - exists s. reflexivity.
  - destruct s as [|b s]; [discriminate|]. cbn [JS.startsWith] in H.
    destruct (Ascii.eqb c b) eqn:E; [|discriminate].
    apply Ascii.eqb_eq in E. subst b.
    destruct (IH _ H) as [r ->]. exists r. reflexivity.
Qed.

Lemma startsWith_trans (s p q : string) :
  JS.startsWith s p = true -> JS.startsWith p q = true ->
  JS.startsWith s q = true.
Proof.
  intros [r ->]%startsWith_inv [t ->]%startsWith_inv.
  rewrite app_assoc_s. apply startsWith_app.
Qed.

Lemma includes_startsWith (s n : string) :
  JS.startsWith s n = true -> JS.includes s n = true.
Proof. destruct s; cbn [JS.includes]; intros ->; reflexivity. Qed.

Lemma includes_tail c (s n : string) :
  JS.includes s n = true -> JS.includes (String c s) n = true.
Proof. intros H. cbn [JS.includes]. rewrite H. apply orb_true_r. Qed.

Lemma endsWith_slash_free s :
  all_units not_slash s = true -> JS.endsWith s "/" = false.
Proof.
  induction s as [|c s IH]; [reflexivity|].
  cbn [all_units JS.endsWith]. rewrite andb_true_iff. intros [Hc Hs].
  rewrite (IH Hs), orb_false_r.
  cbn [String.eqb]. unfold not_slash in Hc. apply negb_true_iff in Hc.
  rewrite Hc. reflexivity.
Qed.

Lemma endsWith_refl s : JS.endsWith s s = true.
Proof. destruct s; cbn [JS.endsWith]; rewrite String.eqb_refl; reflexivity. Qed.

Lemma endsWith_app (a s t : string) :
  JS.endsWith s t = true -> JS.endsWith (a +:+ s) t = true.
Proof.
  intros H. induction a as [|c a IH]; [exact H|].
  rewrite app_String. cbn [JS.endsWith]. rewrite IH. apply orb_true_r.
Qed.

Lemma toLowerCase_app (a b : string) :
  JS.toLowerCase (a +:+ b) = JS.toLowerCase a +:+ JS.toLowerCase b.
Proof.
  induction a as [|c a IH]; [reflexivity|].
  rewrite app_String. cbn [JS.toLowerCase]. rewrite IH. reflexivity.
Qed.

End StringFacts.

(** ** Paths *)

Section PathFacts.

Lemma segments_slash_free s :
  all_units not_slash s = true -> Path.segments s = [s].
Proof.
  induction s as [|c s IH]; [reflexivity|].
  cbn [all_units Path.segments]. rewrite andb_true_iff. intros [Hc Hs].
  unfold not_slash in Hc. apply negb_true_iff in Hc.
  rewrite Hc, (IH Hs). reflexivity.
Qed.

Lemma segments_nonempty s : Path.segments s <> [].
Proof.
  destruct s as [|c s]; [discriminate|]. cbn [Path.segments].
  destruct (Ascii.eqb c "/"); [discriminate|].
  destruct (Path.segments s); discriminate.
Qed.

(** A name without a slash that is not empty, [.] or [..] is joined to
    [/tmp] as it stands. *)
Lemma join_tmp_name (n : string) :
  all_units not_slash n = true ->
  String.eqb n "" = false -> String.eqb n "." = false ->
  String.eqb n ".." = false ->
  Path.join "/tmp" n = "/tmp/" +:+ n.
Proof.
  intros Hs He Hd Hdd. unfold Path.join. cbn [List.filter String.eqb negb].
  rewrite He. cbn [negb Path.unsegments].
  change ("/tmp" +:+ "/" +:+ n) with (String "/" (String "t" (String "m" (String "p" (String "/" n))))).
  unfold Path.normalize.
  cbn [String.eqb Ascii.eqb Bool.eqb JS.startsWith negb Path.segments].
  rewrite (segments_slash_free n Hs).
  cbn [Path.normalizeString String.eqb Ascii.eqb Bool.eqb orb].
  rewrite He, Hd, Hdd. cbn [orb Path.normalizeString rev app Path.unsegments].
  cbn [JS.endsWith String.eqb Ascii.eqb Bool.eqb orb].
  rewrite (endsWith_slash_free n Hs).
  destruct n as [|c n]; [discriminate|]. reflexivity.
Qed.

Lemma tempPath_of_uuid u :
  is_uuid u = true -> tempPath_of u = "/tmp/raycast-ocr-" +:+ u +:+ ".png".
Proof.
  intros H. unfold tempPath_of. rewrite join_tmp_name; try reflexivity.
  change ("raycast-ocr-" +:+ u +:+ ".png") with ("raycast-ocr-" +:+ (u +:+ ".png")).
  rewrite !all_units_app, (is_uuid_slash_free u H). reflexivity.
Qed.

Lemma scriptPath_of_uuid u :
  is_uuid u = true ->
  scriptPath_of u = "/tmp/ocr-script-" +:+ u +:+ ".applescript".
Proof.
  intros H. unfold scriptPath_of. rewrite join_tmp_name; try reflexivity.
  rewrite !all_units_app, (is_uuid_slash_free u H). reflexivity.
Qed.

Lemma screenshotPath_of_uuid u :
  is_uuid u = true ->
  screenshotPath_of u = "/tmp/raycast-ocr-screenshot-" +:+ u +:+ ".png".
Proof.
  intros H. unfold screenshotPath_of. rewrite join_tmp_name; try reflexivity.
  rewrite !all_units_app, (is_uuid_slash_free u H). reflexivity.
Qed.

End PathFacts.

(** ** [path.resolve] on what passes the first gate of the second revision *)

Section ResolveFacts.

Lemma segments_snoc_slash s :
  Path.segments (s +:+ "/") = Path.segments s ++ [""].
Proof.
  induction s as [|c s IH]; [reflexivity|].
  rewrite app_String. cbn [Path.segments]. rewrite IH.
  destruct (Ascii.eqb c "/"); [reflexivity|].
  destruct (Path.segments s) as [|seg rest] eqn:E; [|reflexivity].
  now apply segments_nonempty in E.
Qed.

Lemma segments_head s :
  exists seg rest, Path.segments s = seg :: rest /\ JS.startsWith s seg = true.
Proof.
  induction s as [|c s (seg & rest & E & Hp)].
  - exists "", []. split; reflexivity.
  - cbn [Path.segments]. destruct (Ascii.eqb c "/") eqn:Ec.
    + exists "", (Path.segments s). split; reflexivity.
    + rewrite E. exists (String c seg), rest. split; [reflexivity|].
      cbn [JS.startsWith]. rewrite Ascii.eqb_refl. exact Hp.
Qed.

(** Every segment of a path occurs in it. *)
Lemma segments_included s x :
  In x (Path.segments s) -> JS.includes s x = true.
Proof.
  induction s as [|c s IH]; intros Hin.
  - destruct Hin as [<-|[]]. reflexivity.
  - cbn [Path.segments] in Hin. destruct (Ascii.eqb c "/").
    + destruct Hin as [<-|Hin]; [reflexivity|]. apply includes_tail; auto.
    + destruct (segments_head s) as (seg & rest & E & Hp). rewrite E in *.
      destruct Hin as [<-|Hin].
      * apply includes_startsWith. cbn [JS.startsWith].
        rewrite Ascii.eqb_refl. exact Hp.
      * apply includes_tail, IH. now right.
Qed.

(** Without a [..] among the segments nothing is ever removed from the
    stack. *)
Lemma normalizeString_no_parent above stack segs :
  (forall x, In x segs -> String.eqb x ".." = false) ->
  Path.normalizeString above stack segs =
    rev stack ++ List.filter (fun s => negb (FS.is_dot s)) segs.
Proof.
  revert stack. induction segs as [|seg segs IH]; intros stack Hno.
  - cbn. now rewrite app_nil_r.
  - cbn [Path.normalizeString List.filter]. unfold FS.is_dot at 1.
    destruct (String.eqb seg "" || String.eqb seg ".") eqn:Ed; cbn [negb].
    + apply IH. intros x Hx. apply Hno. now right.
    + rewrite (Hno seg (or_introl eq_refl)).
      rewrite IH by (intros x Hx; apply Hno; now right).
      cbn [rev]. now rewrite <- app_assoc.
Qed.

Lemma unsegments_tmp_first l :
  JS.startsWith ("/" +:+ Path.unsegments ("tmp" :: l)) "/tmp" = true.
Proof. destruct l; reflexivity. Qed.

(** The comparison of lines 206-210 never fails for a path that passed
    line 201: [path.resolve] only rewrites the text of the path, and a text
    that begins with [/tmp/] and holds no [..] stays below [/tmp]. *)
Lemma resolve_stays_under_tmp (dir p : string) :
  JS.startsWith p "/tmp/" = true -> JS.includes p ".." = false ->
  JS.startsWith (Path.resolve dir p) (Path.resolve dir "/tmp/") = true.
Proof.
  intros Hp Hdots. destruct (startsWith_inv _ _ Hp) as [r ->].
  change (Path.resolve dir "/tmp/") with "/tmp".
  unfold Path.resolve.
  change (JS.startsWith ("/tmp/" +:+ r) "/") with true. cbv iota.
  rewrite segments_snoc_slash.
  assert (Hseg : Path.segments ("/tmp/" +:+ r) = "" :: "tmp" :: Path.segments r).
  { change ("/tmp/" +:+ r)
      with (String "/" (String "t" (String "m" (String "p" (String "/" r))))).
    reflexivity. }
  rewrite Hseg.
  change (Path.normalizeString false [] (("" :: "tmp" :: Path.segments r) ++ [""]))
    with (Path.normalizeString false ["tmp"] (Path.segments r ++ [""])).
  rewrite normalizeString_no_parent.
  - apply unsegments_tmp_first.
  - intros x Hx. destruct (String.eqb x "..") eqn:E; [|reflexivity].
    apply String.eqb_eq in E. subst x. exfalso.
    apply in_app_or in Hx. destruct Hx as [Hx|[Hx|[]]]; [|discriminate].
    assert (Hin : In ".." (Path.segments ("/tmp/" +:+ r)))
      by (rewrite Hseg; right; right; exact Hx).
    apply segments_included in Hin. congruence.
Qed.

End ResolveFacts.

(** ** The source's suffix test against the allow-list of the specification *)

Section ExtensionFacts.

Lemma extension_none s :
  all_units not_dot s = true -> extension s = None.
Proof.
  induction s as [|c s IH]; [reflexivity|].
  cbn [all_units extension]. rewrite andb_true_iff. intros [Hc Hs].
  rewrite (IH Hs). unfold not_dot in Hc. apply negb_true_iff in Hc.
  now rewrite Hc.
Qed.

Lemma endsWith_dot_extension (s e : string) :
  all_units not_dot e = true ->
  JS.endsWith s (String "." e) =
    match extension s with Some x => String.eqb x e | None => false end.
Proof.
  intros He. induction s as [|c s IH]; [reflexivity|].
  cbn [JS.endsWith extension]. rewrite IH. cbn [String.eqb].
  destruct (extension s) as [x|] eqn:Ex.
  - destruct (Ascii.eqb c ".") eqn:Ec; [|reflexivity].
    destruct (String.eqb s e) eqn:Ese; [|reflexivity].
    apply String.eqb_eq in Ese. subst s.
    rewrite (extension_none e He) in Ex. discriminate.
  - destruct (Ascii.eqb c "."); [|reflexivity]. now rewrite orb_false_r.
Qed.

Lemma lower_unit_dot c : Ascii.eqb (JS.lower_unit c) "." = Ascii.eqb c ".".
Proof. destruct c as [[] [] [] [] [] [] [] []]; reflexivity. Qed.

Lemma extension_toLowerCase s :
  extension (JS.toLowerCase s) = option_map JS.toLowerCase (extension s).
Proof.
  induction s as [|c s IH]; [reflexivity|].
  cbn [JS.toLowerCase extension]. rewrite IH, lower_unit_dot.
  destruct (extension s); [reflexivity|].
  destruct (Ascii.eqb c "."); reflexivity.
Qed.

(** The test of line 23 holds exactly for the paths whose extension is on
    the allow-list. *)
Lemma isImage_allowed_extension p : isImage p = allowed_extension p.
Proof.
  unfold isImage, allowed_extension, imageExtensions, allowList.
  cbn [existsb].
  rewrite !endsWith_dot_extension by reflexivity.
  rewrite extension_toLowerCase.
  destruct (extension p); reflexivity.
Qed.

End ExtensionFacts.

(** ** Awaited computations *)

Section MonadFacts.
Context {A B : Type}.

Lemma bind_value (m : M A) (k : A -> M B) w w' a :
  m w = (w', inr a) -> bind m k w = k a w'.
Proof. intros H. unfold bind. now rewrite H. Qed.

Lemma bind_thrown (m : M A) (k : A -> M B) w w' e :
  m w = (w', inl e) -> bind m k w = (w', inl e).
Proof. intros H. unfold bind. now rewrite H. Qed.

Lemma try_catch_value (m : M A) (h : exn -> M A) w w' a :
  m w = (w', inr a) -> try_catch m h w = (w', inr a).
Proof. intros H. unfold try_catch. now rewrite H. Qed.

Lemma try_catch_thrown (m : M A) (h : exn -> M A) w w' e :
  m w = (w', inl e) -> try_catch m h w = h e w'.
Proof. intros H. unfold try_catch. now rewrite H. Qed.

End MonadFacts.

Lemma guarded_unlink_total p w :
  exists w', guarded_unlink p w = (w', inr tt).
Proof.
  unfold guarded_unlink, try_catch, unlink, console_error.
  destruct (denied w (Unlink p)); [eexists; reflexivity|].
  destruct (FS.unlink (fs w) (cwd w) p); eexists; reflexivity.
Qed.

(** ** First revision *)

Lemma V1_cleanup_gate p :
  V1.cleanupTempFile p =
    if JS.startsWith p "/tmp/raycast-ocr" then guarded_unlink p else ret tt.
Proof. unfold V1.cleanupTempFile. now destruct (JS.startsWith p _). Qed.

Lemma V1_cleanup_total p w : exists w', V1.cleanupTempFile p w = (w', inr tt).
Proof.
  rewrite V1_cleanup_gate. destruct (JS.startsWith p _).
  - apply guarded_unlink_total.
  - eexists; reflexivity.
Qed.

(** The script path never passes the gate of line 93. *)
Lemma V1_script_path_rejected u w :
  is_uuid u = true -> V1.cleanupTempFile (scriptPath_of u) w = (w, inr tt).
Proof.
  intros H. rewrite V1_cleanup_gate, (scriptPath_of_uuid u H). reflexivity.
Qed.

Lemma V1_reaches_export w :
  reaches_export w = true ->
  V1.getClipboardImagePath w = V1.exportClipboardImage (record ClipboardRead w).
Proof.
  unfold reaches_export, V1.getClipboardImagePath, bind, Clipboard_read.
  destruct (clipboard w) as [e|c]; [discriminate|].
  destruct (JS.truthy (file c)) as [p|]; [|reflexivity].
  destruct (isImage p); [discriminate|reflexivity].
Qed.

(** How a run of the guarded block ends, step by step.  The cleanup calls
    do not show: none of them throws, so none of them changes the result. *)
Lemma V1_export_value w :
  snd (V1.exportClipboardImage w) =
    match V1.write_step w with
    | (_, inl _) => inr None
    | (w3, inr _) =>
        match V1.run_step w w3 with
        | (_, inl _) => inr None
        | (_, inr stdout) =>
            inr (if String.eqb (JS.trim stdout) "success"
                 then Some (tempPath_of (first_id w)) else None)
        end
    end.
Proof.
  unfold V1.exportClipboardImage, V1.write_step, V1.run_step.
  unfold try_catch at 1. unfold bind at 1. unfold randomUUID at 1.
  unfold bind at 1. unfold randomUUID at 1.
  change (uuid_at (draw w) (uuid_drawn (draw w))) with (second_id w).
  change (uuid_at w (uuid_drawn w)) with (first_id w).
  fold (tempPath_of (first_id w)). fold (scriptPath_of (second_id w)).
  unfold bind at 1.
  destruct (writeFile _ _ _) as [w3 [e|[]]]; [reflexivity|].
  unfold try_finally, try_catch, bind.
  destruct (execFileAsync _ _ _ w3) as [w4 [e|stdout]].
  - destruct (V1_cleanup_total (scriptPath_of (second_id w)) w4) as [w5 ->].
    reflexivity.
  - destruct (String.eqb (JS.trim stdout) "success");
      destruct (V1_cleanup_total (scriptPath_of (second_id w)) w4) as [w5 ->];
      cbn [ret];
      destruct (V1_cleanup_total (scriptPath_of (second_id w)) w5) as [w6 ->];
      reflexivity.
Qed.

(** The world a run of the block ends in: the one the interpreter left.  No
    cleanup call of lines 54, 58 and 63 gets past line 93. *)
Lemma V1_export_world w :
  is_uuid (second_id w) = true ->
  fst (V1.exportClipboardImage w) =
    match V1.write_step w with
    | (w3, inl _) => w3
    | (w3, inr _) => fst (V1.run_step w w3)
    end.
Proof.
  intros Hu. unfold V1.exportClipboardImage, V1.write_step, V1.run_step.
  unfold try_catch at 1. unfold bind at 1. unfold randomUUID at 1.
  unfold bind at 1. unfold randomUUID at 1.
  change (uuid_at (draw w) (uuid_drawn (draw w))) with (second_id w).
  change (uuid_at w (uuid_drawn w)) with (first_id w).
  fold (tempPath_of (first_id w)). fold (scriptPath_of (second_id w)).
  unfold bind at 1.
  destruct (writeFile _ _ _) as [w3 [e|[]]]; [reflexivity|].
  unfold try_finally, try_catch, bind.
  destruct (execFileAsync _ _ _ w3) as [w4 [e|stdout]].
  - rewrite (V1_script_path_rejected _ w4 Hu). reflexivity.
  - destruct (String.eqb (JS.trim stdout) "success");
      rewrite (V1_script_path_rejected _ w4 Hu); cbn [ret];
      rewrite (V1_script_path_rejected _ w4 Hu); reflexivity.
Qed.

(** ** Second revision *)

(** Lines 200-210 come down to the two textual tests of line 201. *)
Lemma V2_cleanup_gate p w :
  V2.cleanupTempFile p w =
    if JS.startsWith p "/tmp/" && negb (JS.includes p "..")
    then guarded_unlink p w else (w, inr tt).
Proof.
  unfold V2.cleanupTempFile.
  destruct (JS.startsWith p "/tmp/") eqn:Hp; [|reflexivity].
  destruct (JS.includes p "..") eqn:Hd; [reflexivity|].
  cbn [negb orb andb]. unfold bind, path_resolve.
  rewrite (resolve_stays_under_tmp (cwd w) p Hp Hd). reflexivity.
Qed.

Lemma V2_cleanup_total p w : exists w', V2.cleanupTempFile p w = (w', inr tt).
Proof.
  rewrite V2_cleanup_gate. destruct (_ && _).
  - apply guarded_unlink_total.
  - eexists; reflexivity.
Qed.

Lemma V2_reaches_export w :
  reaches_export w = true ->
  V2.getClipboardImagePath w = V2.exportClipboardImage (record ClipboardRead w).
Proof.
  unfold reaches_export, V2.getClipboardImagePath, bind, Clipboard_read.
  destruct (clipboard w) as [e|c]; [discriminate|].
  destruct (JS.truthy (file c)) as [p|]; [|reflexivity].
  destruct (isImage p); [discriminate|reflexivity].
Qed.

Lemma V2_export_run w :
  V2.exportClipboardImage w =
    match V2.write_step w with
    | (w3, inl _) => (w3, inr None)
    | (w3, inr _) =>
        match V2.run_step w w3 with
        | (w4, inl _) =>
            (fst (V2.cleanupTempFile (scriptPath_of (second_id w)) w4), inr None)
        | (w4, inr stdout) =>
            (fst (V2.cleanupTempFile (scriptPath_of (second_id w))
                    (fst (V2.cleanupTempFile (scriptPath_of (second_id w)) w4))),
             inr (if String.eqb (JS.trim stdout) "success"
                  then Some (tempPath_of (first_id w)) else None))
        end
    end.
Proof.
  unfold V2.exportClipboardImage, V2.write_step, V2.run_step.
  unfold try_catch at 1. unfold bind at 1. unfold randomUUID at 1.
  unfold bind at 1. unfold randomUUID at 1.
  change (uuid_at (draw w) (uuid_drawn (draw w))) with (second_id w).
  change (uuid_at w (uuid_drawn w)) with (first_id w).
  fold (tempPath_of (first_id w)). fold (scriptPath_of (second_id w)).
  unfold bind at 1.
  destruct (writeFile _ _ _) as [w3 [e|[]]]; [reflexivity|].
  unfold try_finally, try_catch, bind, process_env.
  destruct (execFileAsync _ _ _ w3) as [w4 [e|stdout]].
  - destruct (V2_cleanup_total (scriptPath_of (second_id w)) w4) as [w5 ->].
    reflexivity.
  - destruct (String.eqb (JS.trim stdout) "success");
      destruct (V2_cleanup_total (scriptPath_of (second_id w)) w4) as [w5 ->];
      cbn [ret fst];
      destruct (V2_cleanup_total (scriptPath_of (second_id w)) w5) as [w6 ->];
      reflexivity.
Qed.

Lemma V2_export_value w :
  snd (V2.exportClipboardImage w) =
    match V2.write_step w with
    | (_, inl _) => inr None
    | (w3, inr _) =>
        match V2.run_step w w3 with
        | (_, inl _) => inr None
        | (_, inr stdout) =>
            inr (if String.eqb (JS.trim stdout) "success"
                 then Some (tempPath_of (first_id w)) else None)
        end
    end.
Proof.
  rewrite V2_export_run.
  destruct (V2.write_step w) as [w3 [e|[]]]; [reflexivity|].
  destruct (V2.run_step w w3) as [w4 [e|stdout]]; reflexivity.
Qed.

(** ** What the runs leave behind *)

Lemma unlinked_app (t1 t2 : list event) :
  unlinked (t1 ++ t2) = unlinked t1 ++ unlinked t2.
Proof. unfold unlinked. apply flat_map_app. Qed.

Lemma written_app (t1 t2 : list event) :
  written (t1 ++ t2) = written t1 ++ written t2.
Proof. unfold written. apply flat_map_app. Qed.

Lemma writeFile_trace p data w :
  trace (fst (writeFile p data w)) = trace w ++ [WriteFile p data].
Proof.
  unfold writeFile. destruct (denied w _); [reflexivity|].
  destruct (FS.writeFile _ _ _ _); reflexivity.
Qed.

Lemma execFileAsync_trace c a o w :
  trace (fst (execFileAsync c a o w)) =
    trace w ++ [ExecFile c a (match o with Some e => e | None => env w end)].
Proof. unfold execFileAsync. destruct (child w _ _ _ _). reflexivity. Qed.

(** In the first revision a run of the block never calls [unlink]. *)
Lemma V1_export_never_unlinks w :
  is_uuid (second_id w) = true ->
  unlinked (trace (fst (V1.exportClipboardImage w))) = unlinked (trace w).
Proof.
  intros Hu. rewrite (V1_export_world w Hu).
  pose proof (writeFile_trace (scriptPath_of (second_id w))
                (V1.script (tempPath_of (first_id w))) (draw (draw w))) as Hw.
  fold (V1.write_step w) in Hw.
  destruct (V1.write_step w) as [w3 [e|[]]]; cbn [fst] in Hw.
  - rewrite Hw, unlinked_app. cbn. now rewrite app_nil_r.
  - unfold V1.run_step. rewrite execFileAsync_trace, Hw, !unlinked_app.
    cbn. now rewrite !app_nil_r.
Qed.

(** In the second revision the text written is always the same, ... *)
Lemma V2_script_text_fixed w :
  written (trace (fst (V2.write_step w))) = written (trace w) ++ [V2.script].
Proof.
  unfold V2.write_step. rewrite writeFile_trace, written_app. reflexivity.
Qed.

(** ... and the destination reaches the interpreter in its environment. *)
Lemma V2_destination_in_environment w w3 :
  exists e,
    trace (fst (V2.run_step w w3)) =
      trace w3 ++ [ExecFile "osascript" [scriptPath_of (second_id w)] e] /\
    e !! "OCR_OUTPUT_PATH" = Some (tempPath_of (first_id w)).
Proof.
  eexists. split.
  - unfold V2.run_step. rewrite execFileAsync_trace. reflexivity.
  - apply lookup_insert_eq.
Qed.

(** The second revision turns away every path that holds [..]. *)
Lemma V2_traversal_rejected p w :
  JS.includes p ".." = true -> V2.cleanupTempFile p w = (w, inr tt).
Proof.
  intros H. rewrite V2_cleanup_gate, H. now rewrite andb_false_r.
Qed.

Lemma tempPath_is_image u : is_uuid u = true -> isImage (tempPath_of u) = true.
Proof.
  intros H. rewrite (tempPath_of_uuid u H). unfold isImage, imageExtensions.
  cbn [existsb]. rewrite !toLowerCase_app.
  apply orb_true_iff. left. apply endsWith_app, endsWith_app. reflexivity.
Qed.

Lemma V1_export_shape w :
  snd (V1.exportClipboardImage w) = inr None \/
  snd (V1.exportClipboardImage w) = inr (Some (tempPath_of (first_id w))).
Proof.
  rewrite V1_export_value.
  destruct (V1.write_step w) as [w3 [e|[]]]; [now left|].
  destruct (V1.run_step w w3) as [w4 [e|stdout]]; [now left|].
  destruct (String.eqb _ _); [now right|now left].
Qed.

Lemma V2_export_shape w :
  snd (V2.exportClipboardImage w) = inr None \/
  snd (V2.exportClipboardImage w) = inr (Some (tempPath_of (first_id w))).
Proof.
  rewrite V2_export_value.
  destruct (V2.write_step w) as [w3 [e|[]]]; [now left|].
  destruct (V2.run_step w w3) as [w4 [e|stdout]]; [now left|].
  destruct (String.eqb _ _); [now right|now left].
Qed.

(** A failed launch of the capture utility is not caught. *)
Lemma takeScreenshot_launch_failure w f e :
  child w "/usr/sbin/screencapture" ["-i"; screenshotPath_of (first_id w)] (env w) (fs w)
    = (f, inl e) ->
  snd (takeScreenshot w) = inl e.
Proof.
  intros H. unfold takeScreenshot, bind, randomUUID, execFileAsync.
  cbn [fs env child draw]. unfold screenshotPath_of, first_id in H. rewrite H.
  reflexivity.
Qed.

(** * The claims *)

(** C1, first revision (lines 14-72 with the cleanup of lines 91-103): the
    script file is still on disk when [getClipboardImagePath] returns, after
    a run that ends in [null] and after a run that ends in the destination
    path alike, and no [unlink] was ever issued.  The three calls of
    [cleanupTempFile] are made, but the script is named [/tmp/ocr-script-...]
    and line 93 lets only [/tmp/raycast-ocr...] through. *)
Theorem script_file_survives_first_revision :
  (let r := V1.getClipboardImagePath world_no_image in
   snd r = inr None /\
   FS.exists_at (fs (fst r)) "/Users/me" (scriptPath_of uuid_b) = true /\
   unlinked (trace (fst r)) = []) /\
  (let r := V1.getClipboardImagePath world_image in
   snd r = inr (Some ("/tmp/raycast-ocr-" +:+ uuid_a +:+ ".png")) /\
   FS.exists_at (fs (fst r)) "/Users/me" (scriptPath_of uuid_b) = true /\
   unlinked (trace (fst r)) = []).
Proof. vm_compute. repeat split. Qed.

(** The second revision on the same two machines: the script file is gone
    when the function returns. *)
Example script_file_removed_second_revision :
  (let r := V2.getClipboardImagePath world_no_image in
   snd r = inr None /\
   FS.exists_at (fs (fst r)) "/Users/me" (scriptPath_of uuid_b) = false) /\
  (let r := V2.getClipboardImagePath world_image in
   snd r = inr (Some ("/tmp/raycast-ocr-" +:+ uuid_a +:+ ".png")) /\
   FS.exists_at (fs (fst r)) "/Users/me" (scriptPath_of uuid_b) = false).
Proof. vm_compute. repeat split. Qed.

(** Each revision leaves alone every path that does not begin with the
    prefix it tests for itself ([/tmp/raycast-ocr] at line 93, [/tmp/] at
    lines 200-201): the world, its files and its trace of calls are the ones
    before the call.  For the first revision that prefix is the one that
    marks the files of this extension; for the second it is the whole
    temporary directory. *)
Theorem cleanup_ignores_paths_outside_prefix (p : string) (w : World) :
  (JS.startsWith p "/tmp/raycast-ocr" = false ->
   V1.cleanupTempFile p w = (w, inr tt)) /\
  (JS.startsWith p "/tmp/" = false ->
   V2.cleanupTempFile p w = (w, inr tt)).
Proof.
  split; intros H.
  - now rewrite V1_cleanup_gate, H.
  - now rewrite V2_cleanup_gate, H.
Qed.

Lemma cleanup_ignores_paths_outside_prefix_witness :
  V1.cleanupTempFile "/etc/passwd" world_planted = (world_planted, inr tt) /\
  V2.cleanupTempFile "/etc/passwd" world_planted = (world_planted, inr tt).
Proof.
  split.
  - apply (proj1 (cleanup_ignores_paths_outside_prefix "/etc/passwd" world_planted)).
    reflexivity.
  - apply (proj2 (cleanup_ignores_paths_outside_prefix "/etc/passwd" world_planted)).
    reflexivity.
Defined.

(** The two prefixes differ: a file of somebody else directly under [/tmp]
    is left alone by the first revision and unlinked by the second. *)
Example foreign_tmp_file_under_both_gates :
  V1.cleanupTempFile "/tmp/notes.txt" world_planted = (world_planted, inr tt) /\
  fs (fst (V2.cleanupTempFile "/tmp/notes.txt" world_planted))
    !! ["tmp"; "notes.txt"] = None.
Proof. split; [reflexivity | vm_compute; reflexivity]. Qed.

(** C2, second revision (lines 197-218): a file of somebody else directly
    under [/tmp] is unlinked.  [/tmp/notes.txt] does not begin with
    [/tmp/raycast-ocr], the prefix of the files this extension creates, yet
    it begins with [/tmp/] and holds no [..], so lines 200-210 let it
    through and the file is gone after the call, against the comment of line
    198.  The first revision leaves the same machine as it was. *)
Theorem foreign_tmp_file_is_unlinked_second_revision :
  let p := "/tmp/notes.txt" in
  let r := V2.cleanupTempFile p world_planted in
  JS.startsWith p "/tmp/raycast-ocr" = false /\
  planted_tree !! ["tmp"; "notes.txt"] = Some (File "mine") /\
  snd r = inr tt /\
  fs (fst r) !! ["tmp"; "notes.txt"] = None /\
  unlinked (trace (fst r)) = [p] /\
  V1.cleanupTempFile p world_planted = (world_planted, inr tt).
Proof.
  cbv zeta. repeat split; vm_compute; reflexivity.
Qed.

(** C3, first revision (lines 36-48): the text written to the script file
    holds the destination path between double quotes, so two runs that draw
    different identifiers write different texts, and the interpreter is
    started with the environment of the parent, in which nothing names the
    destination. *)
Theorem script_text_holds_destination_first_revision :
  trace (fst (V1.getClipboardImagePath world_no_image)) =
    [ClipboardRead;
     WriteFile (scriptPath_of uuid_b) (V1.script (tempPath_of uuid_a));
     ExecFile "osascript" [scriptPath_of uuid_b] {[ "HOME" := "/Users/me" ]}] /\
  trace (fst (V1.getClipboardImagePath world_no_image')) =
    [ClipboardRead;
     WriteFile (scriptPath_of uuid_b) (V1.script (tempPath_of uuid_c));
     ExecFile "osascript" [scriptPath_of uuid_b] {[ "HOME" := "/Users/me" ]}] /\
  V1.script (tempPath_of uuid_a) <> V1.script (tempPath_of uuid_c) /\
  JS.includes (V1.script (tempPath_of uuid_a)) (tempPath_of uuid_a) = true.
Proof.
  split; [vm_compute; reflexivity|]. split; [vm_compute; reflexivity|].
  split; [|vm_compute; reflexivity].
  apply String.eqb_neq. vm_compute. reflexivity.
Qed.

(** C4, second revision (lines 205-210): [path.resolve] does not follow
    links.  With [/tmp/raycast-ocr-link] a link to [/etc], the argument
    [/tmp/raycast-ocr-link/passwd] has the canonical form [/etc/passwd],
    outside the canonical temporary directory [/tmp], yet the call unlinks
    it and [/etc/passwd] is gone; the link itself, whose canonical form is
    [/etc], is unlinked as well when it is the argument. *)
Theorem links_are_not_resolved_before_unlink :
  FS.realpath planted_tree "/Users/me" "/tmp/" = Some "/tmp" /\
  (let p := "/tmp/raycast-ocr-link/passwd" in
   let r := V2.cleanupTempFile p world_planted in
   FS.realpath planted_tree "/Users/me" p = Some "/etc/passwd" /\
   JS.startsWith "/etc/passwd" "/tmp" = false /\
   planted_tree !! ["etc"; "passwd"] = Some (File "root") /\
   fs (fst r) !! ["etc"; "passwd"] = None /\
   unlinked (trace (fst r)) = [p]) /\
  (let p := "/tmp/raycast-ocr-link" in
   let r := V2.cleanupTempFile p world_planted in
   FS.realpath planted_tree "/Users/me" p = Some "/etc" /\
   JS.startsWith "/etc" "/tmp" = false /\
   planted_tree !! ["tmp"; "raycast-ocr-link"] = Some (Link "/etc") /\
   fs (fst r) !! ["tmp"; "raycast-ocr-link"] = None /\
   unlinked (trace (fst r)) = [p]).
Proof. vm_compute. repeat split. Qed.

(** C5, first revision (lines 91-99): a path with [..] segments that begins
    with [/tmp/raycast-ocr] passes line 93 and is unlinked; on a machine
    where [/tmp/raycast-ocr-x] is a directory the call removes
    [/etc/passwd]. *)
Theorem traversal_is_unlinked_first_revision :
  let p := "/tmp/raycast-ocr-x/../../etc/passwd" in
  let r := V1.cleanupTempFile p world_planted in
  JS.includes p ".." = true /\
  planted_tree !! ["etc"; "passwd"] = Some (File "root") /\
  snd r = inr tt /\
  fs (fst r) !! ["etc"; "passwd"] = None /\
  unlinked (trace (fst r)) = [p].
Proof. vm_compute. repeat split. Qed.

(** C6: when the descriptor carries a file path whose extension is on the
    allow-list, both revisions return that very path and the only call made
    is the clipboard read: nothing is written, copied or started.  When the
    extension is not on the list they run the export block instead, and the
    result is not that path. *)
Theorem file_path_returned_iff_allowed (w : World) (c : ClipboardContent)
    (p : string) :
  clipboard w = inr c -> file c = Some p -> is_uuid (first_id w) = true ->
  (allowed_extension p = true ->
   V1.getClipboardImagePath w = (record ClipboardRead w, inr (Some p)) /\
   V2.getClipboardImagePath w = (record ClipboardRead w, inr (Some p))) /\
  (allowed_extension p = false ->
   V1.getClipboardImagePath w = V1.exportClipboardImage (record ClipboardRead w) /\
   V2.getClipboardImagePath w = V2.exportClipboardImage (record ClipboardRead w) /\
   snd (V1.getClipboardImagePath w) <> inr (Some p) /\
   snd (V2.getClipboardImagePath w) <> inr (Some p)).
Proof.
  intros Hc Hp Hu. rewrite <- isImage_allowed_extension. split; intros Hi.
  - unfold V1.getClipboardImagePath, V2.getClipboardImagePath, bind, Clipboard_read.
    rewrite Hc, Hp. destruct p as [|a p]; [discriminate|].
    cbn [JS.truthy]. rewrite Hi. split; reflexivity.
  - assert (Hr : reaches_export w = true).
    { unfold reaches_export. rewrite Hc, Hp.
      destruct p; cbn [JS.truthy]; [reflexivity|]. now rewrite Hi. }
    rewrite (V1_reaches_export w Hr), (V2_reaches_export w Hr).
    repeat split; try reflexivity.
    + destruct (V1_export_shape (record ClipboardRead w)) as [-> | ->];
        [discriminate|].
      intros [= <-]. change (isImage (tempPath_of (first_id w)) = false) in Hi.
      rewrite (tempPath_is_image _ Hu) in Hi. discriminate.
    + destruct (V2_export_shape (record ClipboardRead w)) as [-> | ->];
        [discriminate|].
      intros [= <-]. change (isImage (tempPath_of (first_id w)) = false) in Hi.
      rewrite (tempPath_is_image _ Hu) in Hi. discriminate.
Qed.

Lemma file_path_returned_iff_allowed_witness :
  (V1.getClipboardImagePath (world_copied "/Users/me/Pictures/Cat.PNG") =
     (record ClipboardRead (world_copied "/Users/me/Pictures/Cat.PNG"),
      inr (Some "/Users/me/Pictures/Cat.PNG")) /\
   V2.getClipboardImagePath (world_copied "/Users/me/Pictures/Cat.PNG") =
     (record ClipboardRead (world_copied "/Users/me/Pictures/Cat.PNG"),
      inr (Some "/Users/me/Pictures/Cat.PNG"))) /\
  (snd (V1.getClipboardImagePath (world_copied "/Users/me/notes.txt")) <>
     inr (Some "/Users/me/notes.txt") /\
   snd (V2.getClipboardImagePath (world_copied "/Users/me/notes.txt")) <>
     inr (Some "/Users/me/notes.txt")).
Proof.
  split.
  - apply (proj1 (file_path_returned_iff_allowed
                    (world_copied "/Users/me/Pictures/Cat.PNG")
                    (copied_file "/Users/me/Pictures/Cat.PNG")
                    "/Users/me/Pictures/Cat.PNG" eq_refl eq_refl eq_refl)).
    reflexivity.
  - apply (proj2 (file_path_returned_iff_allowed
                    (world_copied "/Users/me/notes.txt")
                    (copied_file "/Users/me/notes.txt")
                    "/Users/me/notes.txt" eq_refl eq_refl eq_refl)).
    reflexivity.
Defined.

(** C7: in a run that reaches the export block, writes the script and gets
    an output from the interpreter, the result is the generated destination
    path when that output, trimmed, is the word [success], and [null] for
    every other output. *)
Theorem reported_status_decides_result (w : World) (stdout : string) :
  reaches_export w = true ->
  (snd (V1.write_step (record ClipboardRead w)) = inr tt ->
   snd (V1.run_step (record ClipboardRead w)
          (fst (V1.write_step (record ClipboardRead w)))) = inr stdout ->
   snd (V1.getClipboardImagePath w) =
     inr (if String.eqb (JS.trim stdout) "success"
          then Some (tempPath_of (first_id w)) else None)) /\
  (snd (V2.write_step (record ClipboardRead w)) = inr tt ->
   snd (V2.run_step (record ClipboardRead w)
          (fst (V2.write_step (record ClipboardRead w)))) = inr stdout ->
   snd (V2.getClipboardImagePath w) =
     inr (if String.eqb (JS.trim stdout) "success"
          then Some (tempPath_of (first_id w)) else None)).
Proof.
  intros Hr. split; intros Hw Hx.
  - rewrite (V1_reaches_export w Hr), V1_export_value.
    destruct (V1.write_step _) as [w3 [e|[]]]; [discriminate|].
    cbn [fst] in Hx. destruct (V1.run_step _ w3) as [w4 [e|out]]; [discriminate|].
    cbn [snd] in Hx. now injection Hx as ->.
  - rewrite (V2_reaches_export w Hr), V2_export_value.
    destruct (V2.write_step _) as [w3 [e|[]]]; [discriminate|].
    cbn [fst] in Hx. destruct (V2.run_step _ w3) as [w4 [e|out]]; [discriminate|].
    cbn [snd] in Hx. now injection Hx as ->.
Qed.

Lemma reported_status_decides_result_witness :
  (snd (V1.getClipboardImagePath world_image) =
     inr (Some ("/tmp/raycast-ocr-" +:+ uuid_a +:+ ".png")) /\
   snd (V2.getClipboardImagePath world_image) =
     inr (Some ("/tmp/raycast-ocr-" +:+ uuid_a +:+ ".png"))) /\
  (snd (V1.getClipboardImagePath world_no_image) = inr None /\
   snd (V2.getClipboardImagePath world_no_image) = inr None).
Proof.
  split; split.
  - rewrite (proj1 (reported_status_decides_result world_image
                      ("success" +:+ LF) eq_refl)); vm_compute; reflexivity.
  - rewrite (proj2 (reported_status_decides_result world_image
                      ("success" +:+ LF) eq_refl)); vm_compute; reflexivity.
  - rewrite (proj1 (reported_status_decides_result world_no_image
                      ("no_image" +:+ LF) eq_refl)); vm_compute; reflexivity.
  - rewrite (proj2 (reported_status_decides_result world_no_image
                      ("no_image" +:+ LF) eq_refl)); vm_compute; reflexivity.
Defined.

(** C8: once the clipboard has been read, nothing that fails in the export
    block reaches the caller.  Every such run ends in a value, and it ends
    in [null] when the script file cannot be written and when the
    interpreter cannot be started or exits with an error. *)
Theorem export_failures_become_null (w : World) (e : exn) :
  reaches_export w = true ->
  ((exists r, snd (V1.getClipboardImagePath w) = inr r) /\
   (snd (V1.write_step (record ClipboardRead w)) = inl e ->
    snd (V1.getClipboardImagePath w) = inr None) /\
   (snd (V1.write_step (record ClipboardRead w)) = inr tt ->
    snd (V1.run_step (record ClipboardRead w)
           (fst (V1.write_step (record ClipboardRead w)))) = inl e ->
    snd (V1.getClipboardImagePath w) = inr None)) /\
  ((exists r, snd (V2.getClipboardImagePath w) = inr r) /\
   (snd (V2.write_step (record ClipboardRead w)) = inl e ->
    snd (V2.getClipboardImagePath w) = inr None) /\
   (snd (V2.write_step (record ClipboardRead w)) = inr tt ->
    snd (V2.run_step (record ClipboardRead w)
           (fst (V2.write_step (record ClipboardRead w)))) = inl e ->
    snd (V2.getClipboardImagePath w) = inr None)).
Proof.
  intros Hr. split.
  - rewrite (V1_reaches_export w Hr). repeat split.
    + destruct (V1_export_shape (record ClipboardRead w)) as [-> | ->]; eauto.
    + rewrite V1_export_value.
      destruct (V1.write_step _) as [w3 [e'|[]]]; [reflexivity|discriminate].
    + rewrite V1_export_value.
      destruct (V1.write_step _) as [w3 [e'|[]]]; [reflexivity|].
      cbn [fst]. intros _ Hx.
      destruct (V1.run_step _ w3) as [w4 [e'|out]]; [reflexivity|discriminate].
  - rewrite (V2_reaches_export w Hr). repeat split.
    + destruct (V2_export_shape (record ClipboardRead w)) as [-> | ->]; eauto.
    + rewrite V2_export_value.
      destruct (V2.write_step _) as [w3 [e'|[]]]; [reflexivity|discriminate].
    + rewrite V2_export_value.
      destruct (V2.write_step _) as [w3 [e'|[]]]; [reflexivity|].
      cbn [fst]. intros _ Hx.
      destruct (V2.run_step _ w3) as [w4 [e'|out]]; [reflexivity|discriminate].
Qed.

Lemma export_failures_become_null_witness :
  (snd (V1.getClipboardImagePath world_read_only) = inr None /\
   snd (V2.getClipboardImagePath world_read_only) = inr None) /\
  (snd (V1.getClipboardImagePath world_no_interpreter) = inr None /\
   snd (V2.getClipboardImagePath world_no_interpreter) = inr None).
Proof.
  split; split.
  - apply (proj1 (proj2 (proj1 (export_failures_become_null world_read_only
                                  (Error "EACCES") eq_refl)))).
    vm_compute; reflexivity.
  - apply (proj1 (proj2 (proj2 (export_failures_become_null world_read_only
                                  (Error "EACCES") eq_refl)))).
    vm_compute; reflexivity.
  - apply (proj2 (proj2 (proj1 (export_failures_become_null world_no_interpreter
                                  (Error "spawn ENOENT") eq_refl))));
      vm_compute; reflexivity.
  - apply (proj2 (proj2 (proj2 (export_failures_become_null world_no_interpreter
                                  (Error "spawn ENOENT") eq_refl))));
      vm_compute; reflexivity.
Defined.

(** C9: whenever the capture utility ends without an error, whatever it did
    or did not store, [takeScreenshot] returns
    [/tmp/raycast-ocr-screenshot-<uuid>.png].  The only call it makes is the
    launch of the utility, with [-i] and that path as two arguments: the file
    is never looked at before the path is returned. *)
Theorem takeScreenshot_returns_fixed_path (w : World) (stdout : string) :
  is_uuid (first_id w) = true ->
  snd (child w "/usr/sbin/screencapture"
         ["-i"; "/tmp/raycast-ocr-screenshot-" +:+ first_id w +:+ ".png"]
         (env w) (fs w)) = inr stdout ->
  takeScreenshot w =
    (with_fs
       (fst (child w "/usr/sbin/screencapture"
               ["-i"; "/tmp/raycast-ocr-screenshot-" +:+ first_id w +:+ ".png"]
               (env w) (fs w)))
       (record
          (ExecFile "/usr/sbin/screencapture"
             ["-i"; "/tmp/raycast-ocr-screenshot-" +:+ first_id w +:+ ".png"]
             (env w))
          (draw w)),
     inr ("/tmp/raycast-ocr-screenshot-" +:+ first_id w +:+ ".png")).
Proof.
  intros Hu Hx. unfold takeScreenshot, bind, randomUUID.
  fold (first_id w). fold (screenshotPath_of (first_id w)).
  rewrite (screenshotPath_of_uuid _ Hu).
  unfold execFileAsync. cbn [fs env child draw].
  destruct (child w _ _ _ _) as [f [e|out]]; [discriminate|].
  cbn [snd] in Hx. injection Hx as ->. reflexivity.
Qed.

Lemma takeScreenshot_returns_fixed_path_witness :
  (snd (takeScreenshot world_capture_done) =
     inr ("/tmp/raycast-ocr-screenshot-" +:+ uuid_a +:+ ".png") /\
   FS.exists_at (fs (fst (takeScreenshot world_capture_done))) "/Users/me"
     ("/tmp/raycast-ocr-screenshot-" +:+ uuid_a +:+ ".png") = true) /\
  (snd (takeScreenshot world_capture_cancelled) =
     inr ("/tmp/raycast-ocr-screenshot-" +:+ uuid_a +:+ ".png") /\
   FS.exists_at (fs (fst (takeScreenshot world_capture_cancelled))) "/Users/me"
     ("/tmp/raycast-ocr-screenshot-" +:+ uuid_a +:+ ".png") = false).
Proof.
  split; split.
  - now rewrite (takeScreenshot_returns_fixed_path world_capture_done ""
                   eq_refl eq_refl).
  - vm_compute; reflexivity.
  - now rewrite (takeScreenshot_returns_fixed_path world_capture_cancelled ""
                   eq_refl eq_refl).
  - vm_compute; reflexivity.
Defined.

(** C10: [Clipboard.read()] is awaited before the [try] of the export block
    opens; when it rejects, the rejection is the outcome of
    [getClipboardImagePath], and nothing else has been called. *)
Theorem clipboard_failure_propagates (w : World) (e : exn) :
  clipboard w = inl e ->
  V1.getClipboardImagePath w = (record ClipboardRead w, inl e) /\
  V2.getClipboardImagePath w = (record ClipboardRead w, inl e).
Proof.
  intros H.
  unfold V1.getClipboardImagePath, V2.getClipboardImagePath, bind, Clipboard_read.
  rewrite H. split; reflexivity.
Qed.

Lemma clipboard_failure_propagates_witness :
  V1.getClipboardImagePath world_clipboard_broken =
    (record ClipboardRead world_clipboard_broken,
     inl (Error "clipboard unavailable")) /\
  V2.getClipboardImagePath world_clipboard_broken =
    (record ClipboardRead world_clipboard_broken,
     inl (Error "clipboard unavailable")).
Proof.
  exact (clipboard_failure_propagates world_clipboard_broken
           (Error "clipboard unavailable") eq_refl).
Defined.

(** * Further properties of the three functions *)

(** ** Entries directly under [/tmp] *)

Lemma namei_nil (fuel : nat) (follow : bool) (tree : gmap (list string) node)
    (cur : list string) :
  FS.namei (S fuel) follow tree cur [] = Some cur.
Proof. reflexivity. Qed.

Lemma namei_dot (fuel : nat) (follow : bool) (tree : gmap (list string) node)
    (cur : list string) (c : string) (rest : list string) :
  FS.is_dot c = true ->
  FS.namei (S fuel) follow tree cur (c :: rest) =
    FS.namei fuel follow tree cur rest.
Proof. intros H. cbn [FS.namei]. now rewrite H. Qed.

Lemma namei_name (fuel : nat) (follow : bool) (tree : gmap (list string) node)
    (cur : list string) (c : string) (rest : list string) :
  FS.is_dot c = false -> String.eqb c ".." = false ->
  FS.namei (S fuel) follow tree cur (c :: rest) =
    match tree !! (cur ++ [c]) with
    | Some Dir => FS.namei fuel follow tree (cur ++ [c]) rest
    | Some (Link t) =>
        match rest with
        | [] =>
            if follow
            then FS.namei fuel follow tree (FS.origin cur t) (Path.segments t)
            else Some (cur ++ [c])
        | _ :: _ =>
            FS.namei fuel follow tree (FS.origin cur t) (Path.segments t ++ rest)
        end
    | Some (File _) => match rest with [] => Some (cur ++ [c]) | _ :: _ => None end
    | None => match rest with [] => Some (cur ++ [c]) | _ :: _ => None end
    end.
Proof. intros H1 H2. cbn [FS.namei]. now rewrite H1, H2. Qed.

Section TmpEntries.

Variable tree : gmap (list string) node.
Variable dir n : string.
Hypothesis tmp_is_dir : tree !! ["tmp"] = Some Dir.
Hypothesis n_plain : plain_name n = true.

Lemma plain_name_parts :
  all_units not_slash n = true /\ String.eqb n "" = false /\
  String.eqb n "." = false /\ String.eqb n ".." = false.
Proof using n_plain.
  unfold plain_name in n_plain.
  rewrite !andb_true_iff, !negb_true_iff in n_plain. tauto.
Qed.

Lemma segments_tmp_name :
  Path.segments ("/tmp/" +:+ n) = [""; "tmp"; n].
Proof using n_plain.
  destruct plain_name_parts as (Hs & _).
  change ("/tmp/" +:+ n)
    with (String "/" (String "t" (String "m" (String "p" (String "/" n))))).
  cbn [Path.segments Ascii.eqb Bool.eqb]. now rewrite (segments_slash_free n Hs).
Qed.

(** Without following a final link, [/tmp/n] names the entry [tmp/n]. *)
Lemma locate_tmp_name :
  FS.locate false tree dir ("/tmp/" +:+ n) = Some ["tmp"; n].
Proof using tmp_is_dir n_plain.
  destruct plain_name_parts as (Hs & He & Hd & Hdd).
  unfold FS.locate. change (String.eqb ("/tmp/" +:+ n) "") with false.
  cbv iota. unfold FS.origin at 1.
  change (JS.startsWith ("/tmp/" +:+ n) "/") with true. cbv iota.
  rewrite segments_tmp_name. unfold FS.budget.
  rewrite namei_dot by reflexivity.
  rewrite namei_name by reflexivity. cbn [app]. rewrite tmp_is_dir.
  rewrite namei_name by (try unfold FS.is_dot; now rewrite ?He, ?Hd, ?Hdd).
  cbn [app].
  destruct (tree !! ["tmp"; n]) as [[| |t]|]; reflexivity.
Qed.

Lemma unlink_tmp_name :
  FS.unlink tree dir ("/tmp/" +:+ n) =
    match tree !! ["tmp"; n] with
    | Some (File _) | Some (Link _) => Some (delete ["tmp"; n] tree)
    | Some Dir | None => None
    end.
Proof using tmp_is_dir n_plain.
  unfold FS.unlink. now rewrite locate_tmp_name.
Qed.

(** A missing entry does not exist, whatever the working directory. *)
Lemma exists_at_tmp_missing :
  tree !! ["tmp"; n] = None -> FS.exists_at tree dir ("/tmp/" +:+ n) = false.
Proof using tmp_is_dir n_plain.
  intros Hn. destruct plain_name_parts as (Hs & He & Hd & Hdd).
  unfold FS.exists_at, FS.realpath, FS.locate.
  change (String.eqb ("/tmp/" +:+ n) "") with false.
  cbv iota. unfold FS.origin at 1.
  change (JS.startsWith ("/tmp/" +:+ n) "/") with true. cbv iota.
  rewrite segments_tmp_name. unfold FS.budget.
  rewrite namei_dot by reflexivity.
  rewrite namei_name by reflexivity. cbn [app]. rewrite tmp_is_dir.
  rewrite namei_name by (try unfold FS.is_dot; now rewrite ?He, ?Hd, ?Hdd).
  cbn [app]. rewrite Hn. now rewrite Hn.
Qed.

(** A regular file there exists. *)
Lemma exists_at_tmp_file d :
  tree !! ["tmp"; n] = Some (File d) ->
  FS.exists_at tree dir ("/tmp/" +:+ n) = true.
Proof using tmp_is_dir n_plain.
  intros Hn. destruct plain_name_parts as (Hs & He & Hd & Hdd).
  unfold FS.exists_at, FS.realpath, FS.locate.
  change (String.eqb ("/tmp/" +:+ n) "") with false.
  cbv iota. unfold FS.origin at 1.
  change (JS.startsWith ("/tmp/" +:+ n) "/") with true. cbv iota.
  rewrite segments_tmp_name. unfold FS.budget.
  rewrite namei_dot by reflexivity.
  rewrite namei_name by reflexivity. cbn [app]. rewrite tmp_is_dir.
  rewrite namei_name by (try unfold FS.is_dot; now rewrite ?He, ?Hd, ?Hdd).
  cbn [app]. rewrite Hn. now rewrite Hn.
Qed.

End TmpEntries.

(** ** The generated names *)

Lemma includes_skip_dot_free (u b : string) :
  all_units not_dot u = true ->
  JS.includes (u +:+ b) ".." = JS.includes b "..".
Proof.
  induction u as [|c u IH]; [reflexivity|].
  cbn [all_units]. rewrite andb_true_iff. intros [Hc Hu].
  rewrite app_String. cbn [JS.includes JS.startsWith].
  unfold not_dot in Hc. apply negb_true_iff in Hc.
  rewrite Ascii.eqb_sym, Hc. cbn [orb]. now apply IH.
Qed.

Lemma image_name_plain u : is_uuid u = true -> plain_name (image_name u) = true.
Proof.
  intros H. unfold plain_name, image_name.
  rewrite !all_units_app, (is_uuid_slash_free u H). reflexivity.
Qed.

Lemma script_name_plain u : is_uuid u = true -> plain_name (script_name u) = true.
Proof.
  intros H. unfold plain_name, script_name.
  rewrite !all_units_app, (is_uuid_slash_free u H). reflexivity.
Qed.

Lemma screenshot_name_plain u :
  is_uuid u = true -> plain_name (screenshot_name u) = true.
Proof.
  intros H. unfold plain_name, screenshot_name.
  rewrite !all_units_app, (is_uuid_slash_free u H). reflexivity.
Qed.

Lemma tempPath_of_name u :
  is_uuid u = true -> tempPath_of u = "/tmp/" +:+ image_name u.
Proof. intros H. now rewrite (tempPath_of_uuid u H). Qed.

Lemma scriptPath_of_name u :
  is_uuid u = true -> scriptPath_of u = "/tmp/" +:+ script_name u.
Proof. intros H. now rewrite (scriptPath_of_uuid u H). Qed.

Lemma screenshotPath_of_name u :
  is_uuid u = true -> screenshotPath_of u = "/tmp/" +:+ screenshot_name u.
Proof. intros H. now rewrite (screenshotPath_of_uuid u H). Qed.

Lemma image_path_no_parent u :
  is_uuid u = true -> JS.includes ("/tmp/" +:+ image_name u) ".." = false.
Proof.
  intros H.
  change (JS.includes ("/tmp/" +:+ image_name u) "..")
    with (JS.includes (u +:+ ".png") "..").
  now rewrite (includes_skip_dot_free u _ (is_uuid_dot_free u H)).
Qed.

Lemma script_path_no_parent u :
  is_uuid u = true -> JS.includes ("/tmp/" +:+ script_name u) ".." = false.
Proof.
  intros H.
  change (JS.includes ("/tmp/" +:+ script_name u) "..")
    with (JS.includes (u +:+ ".applescript") "..").
  now rewrite (includes_skip_dot_free u _ (is_uuid_dot_free u H)).
Qed.

Lemma screenshot_path_no_parent u :
  is_uuid u = true -> JS.includes ("/tmp/" +:+ screenshot_name u) ".." = false.
Proof.
  intros H.
  change (JS.includes ("/tmp/" +:+ screenshot_name u) "..")
    with (JS.includes (u +:+ ".png") "..").
  now rewrite (includes_skip_dot_free u _ (is_uuid_dot_free u H)).
Qed.

(** ** [unlink] under its handler *)

Lemma unlink_rejected p w e :
  snd (unlink p w) = inl e -> unlink p w = (record (Unlink p) w, inl e).
Proof.
  unfold unlink. destruct (denied w (Unlink p)).
  - cbn [snd]. now intros [= ->].
  - destruct (FS.unlink (fs w) (cwd w) p); cbn [snd]; [discriminate|].
    now intros [= ->].
Qed.

Lemma guarded_unlink_rejected p w e :
  snd (unlink p w) = inl e ->
  guarded_unlink p w =
    (record (ConsoleError (cleanup_message p)) (record (Unlink p) w), inr tt).
Proof.
  intros H. unfold guarded_unlink, try_catch.
  now rewrite (unlink_rejected p w e H).
Qed.

Lemma guarded_unlink_done p w f :
  denied w (Unlink p) = false -> FS.unlink (fs w) (cwd w) p = Some f ->
  guarded_unlink p w = (with_fs f (record (Unlink p) w), inr tt).
Proof.
  intros Hd Hf. unfold guarded_unlink, try_catch, unlink. now rewrite Hd, Hf.
Qed.

Lemma guarded_unlink_missing p w :
  FS.unlink (fs w) (cwd w) p = None ->
  guarded_unlink p w =
    (record (ConsoleError (cleanup_message p)) (record (Unlink p) w), inr tt).
Proof.
  intros Hf. unfold guarded_unlink, try_catch, unlink, console_error.
  rewrite Hf. now destruct (denied w (Unlink p)).
Qed.

(** What the handler-guarded [unlink] leaves of the tree: the tree itself, or
    the tree without one entry that was a regular file or a link. *)
Lemma guarded_unlink_tree p w :
  fs (fst (guarded_unlink p w)) = fs w \/
  exists key,
    removable (fs w !! key) = true /\
    fs (fst (guarded_unlink p w)) = delete key (fs w).
Proof.
  unfold guarded_unlink, try_catch, unlink, console_error.
  destruct (denied w (Unlink p)); [now left|].
  unfold FS.unlink. destruct (FS.locate false (fs w) (cwd w) p) as [key|];
    [|now left].
  destruct (fs w !! key) as [[|d|t]|] eqn:E; try (now left).
  - right. exists key. rewrite E. now split.
  - right. exists key. rewrite E. now split.
Qed.

(** ** [cleanupTempFile] *)

(** X1: [cleanupTempFile] never throws, in either revision: whatever the
    path and whatever [unlink] does, the call ends normally. *)
Theorem cleanupTempFile_never_throws (p : string) (w : World) :
  snd (V1.cleanupTempFile p w) = inr tt /\
  snd (V2.cleanupTempFile p w) = inr tt.
Proof.
  destruct (V1_cleanup_total p w) as [w1 ->].
  destruct (V2_cleanup_total p w) as [w2 ->]. now split.
Qed.

(** X2: when a path passes the tests of a revision and [unlink] rejects
    (no such file, no permission), the call changes no file, hands
    ["Failed to cleanup temp file: <path>"] to [console.error] once, and
    ends normally. *)
Theorem cleanup_failure_is_logged (p : string) (w : World) (e : exn) :
  snd (unlink p w) = inl e ->
  (JS.startsWith p "/tmp/raycast-ocr" = true ->
   V1.cleanupTempFile p w =
     (record (ConsoleError (cleanup_message p)) (record (Unlink p) w), inr tt)) /\
  (JS.startsWith p "/tmp/" = true -> JS.includes p ".." = false ->
   V2.cleanupTempFile p w =
     (record (ConsoleError (cleanup_message p)) (record (Unlink p) w), inr tt)).
Proof.
  intros He. split.
  - intros Hp. rewrite V1_cleanup_gate, Hp. now apply guarded_unlink_rejected with e.
  - intros Hp Hd. rewrite V2_cleanup_gate, Hp, Hd.
    now apply guarded_unlink_rejected with e.
Qed.

Lemma cleanup_failure_is_logged_witness :
  V1.cleanupTempFile ("/tmp/" +:+ image_name uuid_a) world_sticky =
    (record (ConsoleError (cleanup_message ("/tmp/" +:+ image_name uuid_a)))
       (record (Unlink ("/tmp/" +:+ image_name uuid_a)) world_sticky), inr tt) /\
  V2.cleanupTempFile ("/tmp/" +:+ image_name uuid_a) world_sticky =
    (record (ConsoleError (cleanup_message ("/tmp/" +:+ image_name uuid_a)))
       (record (Unlink ("/tmp/" +:+ image_name uuid_a)) world_sticky), inr tt).
Proof.
  split.
  - apply (proj1 (cleanup_failure_is_logged ("/tmp/" +:+ image_name uuid_a)
                    world_sticky (Error "EACCES") eq_refl)).
    reflexivity.
  - apply (proj2 (cleanup_failure_is_logged ("/tmp/" +:+ image_name uuid_a)
                    world_sticky (Error "EACCES") eq_refl)); reflexivity.
Defined.

(** X3: in the second revision the comparison of the resolved paths (lines
    205-210) rejects nothing: every path that begins with [/tmp/] and holds
    no [..] goes on to [unlink], in any working directory and on any tree. *)
Theorem canonical_check_never_rejects (p : string) (w : World) :
  JS.startsWith p "/tmp/" = true -> JS.includes p ".." = false ->
  V2.cleanupTempFile p w = guarded_unlink p w /\
  unlinked (trace (fst (V2.cleanupTempFile p w))) = unlinked (trace w) ++ [p].
Proof.
  intros Hp Hd. rewrite V2_cleanup_gate, Hp, Hd. split; [reflexivity|].
  cbn [negb andb]. destruct (snd (unlink p w)) as [e|[]] eqn:E.
  - rewrite (guarded_unlink_rejected p w e E). cbn [fst record trace].
    rewrite !unlinked_app. cbn. now rewrite app_nil_r.
  - unfold guarded_unlink, try_catch. unfold unlink in *.
    destruct (denied w (Unlink p)); [discriminate|].
    destruct (FS.unlink (fs w) (cwd w) p); [|discriminate].
    cbn [fst with_fs record trace]. now rewrite unlinked_app.
Qed.

Lemma canonical_check_never_rejects_witness :
  V2.cleanupTempFile "/tmp/raycast-ocr-link/passwd" world_planted =
    guarded_unlink "/tmp/raycast-ocr-link/passwd" world_planted /\
  unlinked (trace (fst (V2.cleanupTempFile "/tmp/raycast-ocr-link/passwd"
                          world_planted))) =
    unlinked (trace world_planted) ++ ["/tmp/raycast-ocr-link/passwd"].
Proof.
  exact (canonical_check_never_rejects "/tmp/raycast-ocr-link/passwd"
           world_planted eq_refl eq_refl).
Defined.

(** X4: on a path that begins with [/tmp/raycast-ocr] and holds no [..] the
    two revisions do the same thing. *)
Theorem revisions_agree_below_own_prefix (p : string) (w : World) :
  JS.startsWith p "/tmp/raycast-ocr" = true -> JS.includes p ".." = false ->
  V1.cleanupTempFile p w = V2.cleanupTempFile p w.
Proof.
  intros Hp Hd. rewrite V1_cleanup_gate, V2_cleanup_gate, Hp, Hd.
  now rewrite (startsWith_trans p "/tmp/raycast-ocr" "/tmp/" Hp eq_refl).
Qed.

Lemma revisions_agree_below_own_prefix_witness :
  V1.cleanupTempFile ("/tmp/" +:+ image_name uuid_a) world_exported =
  V2.cleanupTempFile ("/tmp/" +:+ image_name uuid_a) world_exported.
Proof.
  exact (revisions_agree_below_own_prefix ("/tmp/" +:+ image_name uuid_a)
           world_exported eq_refl eq_refl).
Defined.

(** X5: [cleanupTempFile] never creates or changes an entry and never
    removes a directory: after the call the tree is the one before, or the
    one before without a single entry that was a regular file or a link. *)
Theorem cleanup_removes_at_most_one_entry (p : string) (w : World) :
  (fs (fst (V1.cleanupTempFile p w)) = fs w \/
   exists key, removable (fs w !! key) = true /\
               fs (fst (V1.cleanupTempFile p w)) = delete key (fs w)) /\
  (fs (fst (V2.cleanupTempFile p w)) = fs w \/
   exists key, removable (fs w !! key) = true /\
               fs (fst (V2.cleanupTempFile p w)) = delete key (fs w)).
Proof.
  rewrite V1_cleanup_gate, V2_cleanup_gate. split.
  - destruct (JS.startsWith p "/tmp/raycast-ocr"); [|now left].
    apply guarded_unlink_tree.
  - destruct (_ && _); [|now left]. apply guarded_unlink_tree.
Qed.

(** X6: the picture that the export block or the capture stored is removed
    by [cleanupTempFile] of either revision.  With [/tmp] a directory, a
    regular file at the generated path and [unlink] permitted, the call
    removes that entry and nothing else, and the path no longer exists. *)
Theorem cleanup_removes_generated_picture (u d : string) (w : World) :
  is_uuid u = true ->
  fs w !! ["tmp"] = Some Dir ->
  (fs w !! ["tmp"; image_name u] = Some (File d) ->
   denied w (Unlink (tempPath_of u)) = false ->
   V1.cleanupTempFile (tempPath_of u) w =
     (with_fs (delete ["tmp"; image_name u] (fs w))
        (record (Unlink (tempPath_of u)) w), inr tt) /\
   V2.cleanupTempFile (tempPath_of u) w =
     (with_fs (delete ["tmp"; image_name u] (fs w))
        (record (Unlink (tempPath_of u)) w), inr tt) /\
   FS.exists_at (delete ["tmp"; image_name u] (fs w)) (cwd w) (tempPath_of u)
     = false) /\
  (fs w !! ["tmp"; screenshot_name u] = Some (File d) ->
   denied w (Unlink (screenshotPath_of u)) = false ->
   V1.cleanupTempFile (screenshotPath_of u) w =
     (with_fs (delete ["tmp"; screenshot_name u] (fs w))
        (record (Unlink (screenshotPath_of u)) w), inr tt) /\
   V2.cleanupTempFile (screenshotPath_of u) w =
     (with_fs (delete ["tmp"; screenshot_name u] (fs w))
        (record (Unlink (screenshotPath_of u)) w), inr tt) /\
   FS.exists_at (delete ["tmp"; screenshot_name u] (fs w)) (cwd w)
     (screenshotPath_of u) = false).
Proof.
  intros Hu Ht. split; intros Hf Hd.
  - rewrite (tempPath_of_name u Hu) in *.
    pose proof (image_name_plain u Hu) as Hn.
    assert (Hx : FS.unlink (fs w) (cwd w) ("/tmp/" +:+ image_name u) =
                 Some (delete ["tmp"; image_name u] (fs w))).
    { rewrite (unlink_tmp_name _ _ _ Ht Hn). now rewrite Hf. }
    rewrite V1_cleanup_gate, V2_cleanup_gate, (image_path_no_parent u Hu).
    change (JS.startsWith ("/tmp/" +:+ image_name u) "/tmp/raycast-ocr") with true.
    change (JS.startsWith ("/tmp/" +:+ image_name u) "/tmp/") with true.
    cbn [negb andb]. rewrite (guarded_unlink_done _ _ _ Hd Hx).
    repeat split. apply exists_at_tmp_missing; [|exact Hn|apply lookup_delete_eq].
    rewrite lookup_delete_ne; [exact Ht|discriminate].
  - rewrite (screenshotPath_of_name u Hu) in *.
    pose proof (screenshot_name_plain u Hu) as Hn.
    assert (Hx : FS.unlink (fs w) (cwd w) ("/tmp/" +:+ screenshot_name u) =
                 Some (delete ["tmp"; screenshot_name u] (fs w))).
    { rewrite (unlink_tmp_name _ _ _ Ht Hn). now rewrite Hf. }
    rewrite V1_cleanup_gate, V2_cleanup_gate, (screenshot_path_no_parent u Hu).
    change (JS.startsWith ("/tmp/" +:+ screenshot_name u) "/tmp/raycast-ocr") with true.
    change (JS.startsWith ("/tmp/" +:+ screenshot_name u) "/tmp/") with true.
    cbn [negb andb]. rewrite (guarded_unlink_done _ _ _ Hd Hx).
    repeat split. apply exists_at_tmp_missing; [|exact Hn|apply lookup_delete_eq].
    rewrite lookup_delete_ne; [exact Ht|discriminate].
Qed.

Lemma cleanup_removes_generated_picture_witness :
  (V1.cleanupTempFile (tempPath_of uuid_a) world_exported =
     (with_fs (delete ["tmp"; image_name uuid_a] (fs world_exported))
        (record (Unlink (tempPath_of uuid_a)) world_exported), inr tt) /\
   V2.cleanupTempFile (tempPath_of uuid_a) world_exported =
     (with_fs (delete ["tmp"; image_name uuid_a] (fs world_exported))
        (record (Unlink (tempPath_of uuid_a)) world_exported), inr tt) /\
   FS.exists_at (delete ["tmp"; image_name uuid_a] (fs world_exported))
     (cwd world_exported) (tempPath_of uuid_a) = false) /\
  (V1.cleanupTempFile (screenshotPath_of uuid_a) world_exported =
     (with_fs (delete ["tmp"; screenshot_name uuid_a] (fs world_exported))
        (record (Unlink (screenshotPath_of uuid_a)) world_exported), inr tt) /\
   V2.cleanupTempFile (screenshotPath_of uuid_a) world_exported =
     (with_fs (delete ["tmp"; screenshot_name uuid_a] (fs world_exported))
        (record (Unlink (screenshotPath_of uuid_a)) world_exported), inr tt) /\
   FS.exists_at (delete ["tmp"; screenshot_name uuid_a] (fs world_exported))
     (cwd world_exported) (screenshotPath_of uuid_a) = false).
Proof.
  assert (Ht : fs world_exported !! ["tmp"] = Some Dir)
    by (vm_compute; reflexivity).
  split.
  - apply (proj1 (cleanup_removes_generated_picture uuid_a "PNG" world_exported
                    eq_refl Ht)); vm_compute; reflexivity.
  - apply (proj2 (cleanup_removes_generated_picture uuid_a "PNG" world_exported
                    eq_refl Ht)); vm_compute; reflexivity.
Defined.

(** ** Cleaning up what was generated *)

Lemma guarded_unlink_leaves_absent (w : World) (n : string) :
  fs w !! ["tmp"] = Some Dir -> plain_name n = true ->
  is_dir (fs w !! ["tmp"; n]) = false ->
  denied w (Unlink ("/tmp/" +:+ n)) = false ->
  fs (fst (guarded_unlink ("/tmp/" +:+ n) w)) !! ["tmp"] = Some Dir /\
  fs (fst (guarded_unlink ("/tmp/" +:+ n) w)) !! ["tmp"; n] = None /\
  denied (fst (guarded_unlink ("/tmp/" +:+ n) w)) = denied w.
Proof.
  intros Ht Hn Hdir Hd.
  pose proof (unlink_tmp_name (fs w) (cwd w) n Ht Hn) as Hu.
  destruct (fs w !! ["tmp"; n]) as [[|d|t]|] eqn:E; [discriminate| | |].
  - rewrite (guarded_unlink_done _ _ _ Hd Hu). cbn [fst with_fs fs denied record].
    rewrite lookup_delete_ne by discriminate. rewrite lookup_delete_eq. auto.
  - rewrite (guarded_unlink_done _ _ _ Hd Hu). cbn [fst with_fs fs denied record].
    rewrite lookup_delete_ne by discriminate. rewrite lookup_delete_eq. auto.
  - rewrite (guarded_unlink_missing _ _ Hu). cbn [fst fs denied record]. auto.
Qed.

Lemma guarded_unlink_keeps_absent (w : World) (n : string) :
  fs w !! ["tmp"] = Some Dir -> plain_name n = true ->
  fs w !! ["tmp"; n] = None ->
  guarded_unlink ("/tmp/" +:+ n) w =
    (record (ConsoleError (cleanup_message ("/tmp/" +:+ n)))
       (record (Unlink ("/tmp/" +:+ n)) w), inr tt).
Proof.
  intros Ht Hn Hf. apply guarded_unlink_missing.
  rewrite (unlink_tmp_name (fs w) (cwd w) n Ht Hn). now rewrite Hf.
Qed.

Lemma V1_cleanup_screenshot u w :
  is_uuid u = true ->
  V1.cleanupTempFile (screenshotPath_of u) w =
    guarded_unlink ("/tmp/" +:+ screenshot_name u) w.
Proof.
  intros Hu. rewrite (screenshotPath_of_name u Hu), V1_cleanup_gate. reflexivity.
Qed.

Lemma V2_cleanup_screenshot u w :
  is_uuid u = true ->
  V2.cleanupTempFile (screenshotPath_of u) w =
    guarded_unlink ("/tmp/" +:+ screenshot_name u) w.
Proof.
  intros Hu. rewrite (screenshotPath_of_name u Hu), V2_cleanup_gate.
  rewrite (screenshot_path_no_parent u Hu). reflexivity.
Qed.

Lemma V2_cleanup_script u w :
  is_uuid u = true ->
  V2.cleanupTempFile (scriptPath_of u) w =
    guarded_unlink ("/tmp/" +:+ script_name u) w.
Proof.
  intros Hu. rewrite (scriptPath_of_name u Hu), V2_cleanup_gate.
  rewrite (script_path_no_parent u Hu). reflexivity.
Qed.

Lemma takeScreenshot_run w :
  takeScreenshot w =
    (with_fs (fst (captured w))
       (record (ExecFile "/usr/sbin/screencapture"
                  ["-i"; screenshotPath_of (first_id w)] (env w)) (draw w)),
     match snd (captured w) with
     | inl e => inl e
     | inr _ => inr (screenshotPath_of (first_id w))
     end).
Proof.
  unfold takeScreenshot, bind, randomUUID, execFileAsync, captured.
  cbn [fs env child draw]. fold (first_id w).
  fold (screenshotPath_of (first_id w)).
  destruct (child w _ _ _ _) as [f [e|out]]; reflexivity.
Qed.

(** X7: a screenshot taken and then cleaned up leaves nothing behind, on a
    machine where, after the capture, [/tmp] is a directory, the entry at
    the returned path is not a directory, and [unlink] of that path is
    permitted.  When the capture ends without an error on such a machine,
    whether it stored a picture (the user completed it) or not (the user
    cancelled), [cleanupTempFile] of either revision on the returned path
    ends normally and no file exists at that path afterwards. *)
Theorem capture_then_cleanup_leaves_nothing (w : World) (stdout : string) :
  is_uuid (first_id w) = true ->
  snd (captured w) = inr stdout ->
  fst (captured w) !! ["tmp"] = Some Dir ->
  is_dir (fst (captured w) !! ["tmp"; screenshot_name (first_id w)]) = false ->
  denied w (Unlink ("/tmp/" +:+ screenshot_name (first_id w))) = false ->
  (snd (bind takeScreenshot V1.cleanupTempFile w) = inr tt /\
   FS.exists_at (fs (fst (bind takeScreenshot V1.cleanupTempFile w))) (cwd w)
     (screenshotPath_of (first_id w)) = false) /\
  (snd (bind takeScreenshot V2.cleanupTempFile w) = inr tt /\
   FS.exists_at (fs (fst (bind takeScreenshot V2.cleanupTempFile w))) (cwd w)
     (screenshotPath_of (first_id w)) = false).
Proof.
  intros Hu Hx Ht Hdir Hd.
  pose proof (screenshot_name_plain _ Hu) as Hn.
  unfold bind. rewrite takeScreenshot_run, Hx.
  rewrite (V1_cleanup_screenshot _ _ Hu), (V2_cleanup_screenshot _ _ Hu).
  set (w1 := with_fs _ _).
  destruct (guarded_unlink_leaves_absent w1 (screenshot_name (first_id w)))
    as (Ht' & Hf' & _); try assumption.
  destruct (guarded_unlink_total ("/tmp/" +:+ screenshot_name (first_id w)) w1)
    as [w2 E].
  rewrite E in *. cbn [fst snd] in *.
  rewrite (screenshotPath_of_name _ Hu).
  rewrite (exists_at_tmp_missing (fs w2) (cwd w) _ Ht' Hn Hf'). auto.
Qed.

Lemma capture_then_cleanup_leaves_nothing_witness :
  ((snd (bind takeScreenshot V1.cleanupTempFile world_capture_done) = inr tt /\
    FS.exists_at
      (fs (fst (bind takeScreenshot V1.cleanupTempFile world_capture_done)))
      (cwd world_capture_done)
      (screenshotPath_of (first_id world_capture_done)) = false) /\
   (snd (bind takeScreenshot V2.cleanupTempFile world_capture_done) = inr tt /\
    FS.exists_at
      (fs (fst (bind takeScreenshot V2.cleanupTempFile world_capture_done)))
      (cwd world_capture_done)
      (screenshotPath_of (first_id world_capture_done)) = false)) /\
  ((snd (bind takeScreenshot V1.cleanupTempFile world_capture_cancelled) = inr tt /\
    FS.exists_at
      (fs (fst (bind takeScreenshot V1.cleanupTempFile world_capture_cancelled)))
      (cwd world_capture_cancelled)
      (screenshotPath_of (first_id world_capture_cancelled)) = false) /\
   (snd (bind takeScreenshot V2.cleanupTempFile world_capture_cancelled) = inr tt /\
    FS.exists_at
      (fs (fst (bind takeScreenshot V2.cleanupTempFile world_capture_cancelled)))
      (cwd world_capture_cancelled)
      (screenshotPath_of (first_id world_capture_cancelled)) = false)).
Proof.
  split.
  - apply (capture_then_cleanup_leaves_nothing world_capture_done "");
      vm_compute; reflexivity.
  - apply (capture_then_cleanup_leaves_nothing world_capture_cancelled "");
      vm_compute; reflexivity.
Defined.

(** X8: [takeScreenshot] throws exactly when the capture utility cannot be
    started or ends with an error, and what it throws is that error: nothing
    is caught (lines 78-85 hold no [try]). *)
Theorem takeScreenshot_throws_iff_capture_fails (w : World) (e : exn) :
  snd (takeScreenshot w) = inl e <-> snd (captured w) = inl e.
Proof.
  rewrite takeScreenshot_run. cbn [snd].
  destruct (snd (captured w)) as [e'|out]; split; congruence.
Qed.

Lemma takeScreenshot_throws_iff_capture_fails_witness :
  snd (takeScreenshot world_no_capture) = inl (Error "spawn ENOENT").
Proof.
  apply (proj2 (takeScreenshot_throws_iff_capture_fails world_no_capture
                  (Error "spawn ENOENT"))).
  reflexivity.
Defined.

(** ** The export block *)

Lemma writeFile_denied p data w : denied (fst (writeFile p data w)) = denied w.
Proof.
  unfold writeFile. destruct (denied w _); [reflexivity|].
  destruct (FS.writeFile _ _ _ _); reflexivity.
Qed.

Lemma execFileAsync_denied c a o w :
  denied (fst (execFileAsync c a o w)) = denied w.
Proof. unfold execFileAsync. destruct (child w _ _ _ _). reflexivity. Qed.

Lemma V2_after_run_denied w : denied (V2_after_run w) = denied w.
Proof.
  unfold V2_after_run, V2.run_step, V2.write_step.
  now rewrite execFileAsync_denied, writeFile_denied.
Qed.

(** X9: the second revision leaves no script file behind.  In every run
    that reaches the export block and writes the script, if afterwards [/tmp]
    is still a directory, the script entry has not become a directory and
    [unlink] is permitted, no file exists at the script path when
    [getClipboardImagePath] returns, whether the interpreter printed
    anything or failed. *)
Theorem second_revision_removes_script (w : World) :
  reaches_export w = true ->
  is_uuid (second_id w) = true ->
  snd (V2.write_step (record ClipboardRead w)) = inr tt ->
  fs (V2_after_run (record ClipboardRead w)) !! ["tmp"] = Some Dir ->
  is_dir (fs (V2_after_run (record ClipboardRead w))
            !! ["tmp"; script_name (second_id w)]) = false ->
  denied w (Unlink ("/tmp/" +:+ script_name (second_id w))) = false ->
  FS.exists_at (fs (fst (V2.getClipboardImagePath w))) (cwd w)
    (scriptPath_of (second_id w)) = false.
Proof.
  intros Hr Hu Hw Ht Hdir Hd.
  pose proof (script_name_plain _ Hu) as Hn.
  pose proof (V2_after_run_denied (record ClipboardRead w)) as Hden.
  rewrite (V2_reaches_export w Hr), V2_export_run.
  unfold V2_after_run in *.
  destruct (V2.write_step (record ClipboardRead w)) as [w3 [e|[]]];
    [discriminate|].
  cbn [fst] in *.
  change (second_id (record ClipboardRead w)) with (second_id w).
  destruct (V2.run_step (record ClipboardRead w) w3) as [w4 [e|out]];
    cbn [fst] in *; rewrite !(V2_cleanup_script _ _ Hu).
  - destruct (guarded_unlink_leaves_absent w4 (script_name (second_id w)))
      as (Ht' & Hf' & _); try assumption; [now rewrite Hden|].
    rewrite (scriptPath_of_name _ Hu).
    now apply exists_at_tmp_missing.
  - destruct (guarded_unlink_leaves_absent w4 (script_name (second_id w)))
      as (Ht' & Hf' & _); try assumption; [now rewrite Hden|].
    rewrite (guarded_unlink_keeps_absent _ _ Ht' Hn Hf').
    cbn [fst fs record]. rewrite (scriptPath_of_name _ Hu).
    now apply exists_at_tmp_missing.
Qed.

Lemma second_revision_removes_script_witness :
  FS.exists_at (fs (fst (V2.getClipboardImagePath world_image)))
    (cwd world_image) (scriptPath_of (second_id world_image)) = false /\
  FS.exists_at (fs (fst (V2.getClipboardImagePath world_no_interpreter)))
    (cwd world_no_interpreter)
    (scriptPath_of (second_id world_no_interpreter)) = false.
Proof.
  split.
  - apply (second_revision_removes_script world_image); vm_compute; reflexivity.
  - apply (second_revision_removes_script world_no_interpreter);
      vm_compute; reflexivity.
Defined.

(** X10: the second revision cleans up twice.  When the interpreter has
    printed something and the script file is still in place, the call of
    line 160 or 164 removes it and the call of line 169 then finds nothing:
    the run ends with two [unlink] calls on the script path and one
    ["Failed to cleanup temp file"] message, although nothing went wrong. *)
Theorem second_revision_logs_after_cleanup (w : World) (stdout : string) :
  reaches_export w = true ->
  is_uuid (second_id w) = true ->
  snd (V2.write_step (record ClipboardRead w)) = inr tt ->
  snd (V2.run_step (record ClipboardRead w)
         (fst (V2.write_step (record ClipboardRead w)))) = inr stdout ->
  fs (V2_after_run (record ClipboardRead w)) !! ["tmp"] = Some Dir ->
  removable (fs (V2_after_run (record ClipboardRead w))
               !! ["tmp"; script_name (second_id w)]) = true ->
  denied w (Unlink ("/tmp/" +:+ script_name (second_id w))) = false ->
  trace (fst (V2.getClipboardImagePath w)) =
    trace (V2_after_run (record ClipboardRead w)) ++
    [Unlink ("/tmp/" +:+ script_name (second_id w));
     Unlink ("/tmp/" +:+ script_name (second_id w));
     ConsoleError (cleanup_message ("/tmp/" +:+ script_name (second_id w)))].
Proof.
  intros Hr Hu Hw Hx Ht Hrem Hd.
  pose proof (script_name_plain _ Hu) as Hn.
  pose proof (V2_after_run_denied (record ClipboardRead w)) as Hden.
  rewrite (V2_reaches_export w Hr), V2_export_run.
  unfold V2_after_run in *.
  destruct (V2.write_step (record ClipboardRead w)) as [w3 [e|[]]];
    [discriminate|].
  cbn [fst] in *.
  change (second_id (record ClipboardRead w)) with (second_id w).
  destruct (V2.run_step (record ClipboardRead w) w3) as [w4 [e|out]];
    [discriminate|].
  cbn [fst] in *. rewrite !(V2_cleanup_script _ _ Hu).
  assert (Hd4 : denied w4 (Unlink ("/tmp/" +:+ script_name (second_id w))) = false)
    by now rewrite Hden.
  assert (Hdel : FS.unlink (fs w4) (cwd w4) ("/tmp/" +:+ script_name (second_id w)) =
                 Some (delete ["tmp"; script_name (second_id w)] (fs w4))).
  { rewrite (unlink_tmp_name _ _ _ Ht Hn).
    destruct (fs w4 !! ["tmp"; script_name (second_id w)]) as [[| |]|];
      try discriminate; reflexivity. }
  rewrite (guarded_unlink_done _ _ _ Hd4 Hdel). cbn [fst].
  rewrite guarded_unlink_keeps_absent; try assumption.
  - cbn [fst trace record with_fs]. now rewrite <- !app_assoc.
  - cbn [fs with_fs record]. rewrite lookup_delete_ne; [exact Ht|discriminate].
  - cbn [fs with_fs record]. apply lookup_delete_eq.
Qed.

Lemma second_revision_logs_after_cleanup_witness :
  trace (fst (V2.getClipboardImagePath world_image)) =
    trace (V2_after_run (record ClipboardRead world_image)) ++
    [Unlink ("/tmp/" +:+ script_name (second_id world_image));
     Unlink ("/tmp/" +:+ script_name (second_id world_image));
     ConsoleError
       (cleanup_message ("/tmp/" +:+ script_name (second_id world_image)))].
Proof.
  apply (second_revision_logs_after_cleanup world_image ("success" +:+ LF));
    vm_compute; reflexivity.
Defined.

(** X11: the first revision never calls [unlink] from
    [getClipboardImagePath], whatever the clipboard holds and however the
    run ends: each of its cleanup calls is stopped at line 93. *)
Theorem first_revision_never_unlinks (w : World) :
  is_uuid (second_id w) = true ->
  unlinked (trace (fst (V1.getClipboardImagePath w))) = unlinked (trace w).
Proof.
  intros Hu.
  assert (Hread : unlinked (trace (record ClipboardRead w)) = unlinked (trace w)).
  { cbn [record trace]. rewrite unlinked_app. cbn. now rewrite app_nil_r. }
  unfold V1.getClipboardImagePath, bind, Clipboard_read.
  destruct (clipboard w) as [e|c]; [exact Hread|].
  destruct (JS.truthy (file c)) as [p|].
  - destruct (isImage p); [exact Hread|].
    now rewrite (V1_export_never_unlinks (record ClipboardRead w) Hu).
  - now rewrite (V1_export_never_unlinks (record ClipboardRead w) Hu).
Qed.

Lemma first_revision_never_unlinks_witness :
  unlinked (trace (fst (V1.getClipboardImagePath world_image))) =
    unlinked (trace world_image).
Proof. exact (first_revision_never_unlinks world_image eq_refl). Defined.

Lemma V1_export_write_failed w e :
  snd (V1.write_step w) = inl e ->
  V1.exportClipboardImage w = (fst (V1.write_step w), inr None).
Proof.
  unfold V1.exportClipboardImage, V1.write_step.
  unfold try_catch at 1. unfold bind at 1. unfold randomUUID at 1.
  unfold bind at 1. unfold randomUUID at 1.
  change (uuid_at (draw w) (uuid_drawn (draw w))) with (second_id w).
  change (uuid_at w (uuid_drawn w)) with (first_id w).
  fold (tempPath_of (first_id w)). fold (scriptPath_of (second_id w)).
  unfold bind at 1.
  destruct (writeFile _ _ _) as [w3 [e'|[]]]; [reflexivity|discriminate].
Qed.

Lemma V2_export_write_failed w e :
  snd (V2.write_step w) = inl e ->
  V2.exportClipboardImage w = (fst (V2.write_step w), inr None).
Proof.
  rewrite V2_export_run.
  destruct (V2.write_step w) as [w3 [e'|[]]]; [reflexivity|discriminate].
Qed.

(** X12: when the script file cannot be written, the run is over: both
    revisions return [null] at once, the interpreter is never started and
    no cleanup is attempted.  The calls made are the clipboard read and the
    write, nothing else. *)
Theorem write_failure_ends_the_run (w : World) (e : exn) :
  reaches_export w = true ->
  (snd (V1.write_step (record ClipboardRead w)) = inl e ->
   snd (V1.getClipboardImagePath w) = inr None /\
   trace (fst (V1.getClipboardImagePath w)) =
     trace w ++
     [ClipboardRead;
      WriteFile (scriptPath_of (second_id w))
        (V1.script (tempPath_of (first_id w)))]) /\
  (snd (V2.write_step (record ClipboardRead w)) = inl e ->
   snd (V2.getClipboardImagePath w) = inr None /\
   trace (fst (V2.getClipboardImagePath w)) =
     trace w ++
     [ClipboardRead; WriteFile (scriptPath_of (second_id w)) V2.script]).
Proof.
  intros Hr. split; intros Hw.
  - rewrite (V1_reaches_export w Hr), (V1_export_write_failed _ e Hw).
    split; [reflexivity|]. cbn [fst]. unfold V1.write_step.
    rewrite writeFile_trace. cbn [trace draw record]. now rewrite <- app_assoc.
  - rewrite (V2_reaches_export w Hr), (V2_export_write_failed _ e Hw).
    split; [reflexivity|]. cbn [fst]. unfold V2.write_step.
    rewrite writeFile_trace. cbn [trace draw record]. now rewrite <- app_assoc.
Qed.

Lemma write_failure_ends_the_run_witness :
  (snd (V1.getClipboardImagePath world_read_only) = inr None /\
   trace (fst (V1.getClipboardImagePath world_read_only)) =
     trace world_read_only ++
     [ClipboardRead;
      WriteFile (scriptPath_of (second_id world_read_only))
        (V1.script (tempPath_of (first_id world_read_only)))]) /\
  (snd (V2.getClipboardImagePath world_read_only) = inr None /\
   trace (fst (V2.getClipboardImagePath world_read_only)) =
     trace world_read_only ++
     [ClipboardRead;
      WriteFile (scriptPath_of (second_id world_read_only)) V2.script]).
Proof.
  split.
  - apply (proj1 (write_failure_ends_the_run world_read_only (Error "EACCES")
                    eq_refl)).
    vm_compute; reflexivity.
  - apply (proj2 (write_failure_ends_the_run world_read_only (Error "EACCES")
                    eq_refl)).
    vm_compute; reflexivity.
Defined.

(** ** The interpreter's answer *)

Lemma trimStart_white (a s : string) :
  all_units JS.is_white a = true -> JS.trimStart (a +:+ s) = JS.trimStart s.
Proof.
  induction a as [|c a IH]; [reflexivity|].
  cbn [all_units]. rewrite andb_true_iff. intros [Hc Ha].
  rewrite app_String. cbn [JS.trimStart]. rewrite Hc. now apply IH.
Qed.

Lemma trimEnd_all_white (b : string) :
  all_units JS.is_white b = true -> JS.trimEnd b = "".
Proof.
  induction b as [|c b IH]; [reflexivity|].
  cbn [all_units]. rewrite andb_true_iff. intros [Hc Hb].
  cbn [JS.trimEnd]. rewrite (IH Hb), Hc. reflexivity.
Qed.

Lemma trimEnd_white (s b : string) :
  all_units JS.is_white b = true -> JS.trimEnd (s +:+ b) = JS.trimEnd s.
Proof.
  intros Hb. induction s as [|c s IH].
  - now apply trimEnd_all_white.
  - rewrite app_String. cbn [JS.trimEnd]. now rewrite IH.
Qed.

Lemma trim_padded_success (a b : string) :
  all_units JS.is_white a = true -> all_units JS.is_white b = true ->
  JS.trim (a +:+ "success" +:+ b) = "success".
Proof.
  intros Ha Hb. unfold JS.trim. rewrite (trimStart_white a _ Ha).
  change (JS.trimStart ("success" +:+ b)) with ("success" +:+ b).
  now rewrite (trimEnd_white "success" b Hb).
Qed.

(** X13: white space around the answer does not matter.  Whenever the
    awaited [execFile] call resolves with an output that is the word
    [success] preceded and followed by blanks, tabs or line breaks only (the
    line feed that ends the interpreter's output among them), both revisions
    return the generated destination path.  An output too large for
    [execFile] is not such a case: the call rejects then, and the result is
    [null] as for every rejection. *)
Theorem padded_success_is_accepted (w : World) (a b : string) :
  reaches_export w = true ->
  all_units JS.is_white a = true -> all_units JS.is_white b = true ->
  (snd (V1.write_step (record ClipboardRead w)) = inr tt ->
   snd (V1.run_step (record ClipboardRead w)
          (fst (V1.write_step (record ClipboardRead w))))
     = inr (a +:+ "success" +:+ b) ->
   snd (V1.getClipboardImagePath w) = inr (Some (tempPath_of (first_id w)))) /\
  (snd (V2.write_step (record ClipboardRead w)) = inr tt ->
   snd (V2.run_step (record ClipboardRead w)
          (fst (V2.write_step (record ClipboardRead w))))
     = inr (a +:+ "success" +:+ b) ->
   snd (V2.getClipboardImagePath w) = inr (Some (tempPath_of (first_id w)))).
Proof.
  intros Hr Ha Hb. split; intros Hw Hx.
  - rewrite (V1_reaches_export w Hr), V1_export_value.
    destruct (V1.write_step _) as [w3 [e|[]]]; [discriminate|].
    cbn [fst] in Hx. destruct (V1.run_step _ w3) as [w4 [e|out]]; [discriminate|].
    cbn [snd] in Hx. injection Hx as ->.
    now rewrite (trim_padded_success a b Ha Hb).
  - rewrite (V2_reaches_export w Hr), V2_export_value.
    destruct (V2.write_step _) as [w3 [e|[]]]; [discriminate|].
    cbn [fst] in Hx. destruct (V2.run_step _ w3) as [w4 [e|out]]; [discriminate|].
    cbn [snd] in Hx. injection Hx as ->.
    now rewrite (trim_padded_success a b Ha Hb).
Qed.

Lemma padded_success_is_accepted_witness :
  snd (V1.getClipboardImagePath world_padded) =
    inr (Some (tempPath_of (first_id world_padded))) /\
  snd (V2.getClipboardImagePath world_padded) =
    inr (Some (tempPath_of (first_id world_padded))).
Proof.
  split.
  - apply (proj1 (padded_success_is_accepted world_padded "  " (" " +:+ LF)
                    eq_refl eq_refl eq_refl)); vm_compute; reflexivity.
  - apply (proj2 (padded_success_is_accepted world_padded "  " (" " +:+ LF)
                    eq_refl eq_refl eq_refl)); vm_compute; reflexivity.
Defined.

(** ** The generated paths *)

Lemma is_uuid_length u : is_uuid u = true -> String.length u = 36.
Proof.
  unfold is_uuid. rewrite !andb_true_iff. intros [[H _] _].
  now apply Nat.eqb_eq in H.
Qed.

Lemma app_cancel_r (u v s : string) :
  String.length u = String.length v -> u +:+ s = v +:+ s -> u = v.
Proof.
  revert v. induction u as [|c u IH]; intros [|d v] Hl H; try discriminate.
  - reflexivity.
  - rewrite !app_String in H. injection H as -> H. f_equal.
    apply IH; [now injection Hl|exact H].
Qed.

Lemma is_uuid_first u :
  is_uuid u = true -> exists c u', u = String c u' /\ uuid_unit c = true.
Proof.
  intros H. pose proof (is_uuid_units u H) as Hu.
  destruct u as [|c u']; [discriminate|].
  cbn [all_units] in Hu. apply andb_true_iff in Hu as [Hc _]. eauto.
Qed.

(** X14: the generated paths never collide.  Two identifiers give the same
    destination, script or screenshot path only if they are the same
    identifier, and a path of one kind is never a path of another kind. *)
Theorem generated_paths_never_collide (u v : string) :
  is_uuid u = true -> is_uuid v = true ->
  (tempPath_of u = tempPath_of v -> u = v) /\
  (scriptPath_of u = scriptPath_of v -> u = v) /\
  (screenshotPath_of u = screenshotPath_of v -> u = v) /\
  tempPath_of u <> scriptPath_of v /\
  tempPath_of u <> screenshotPath_of v /\
  scriptPath_of u <> screenshotPath_of v.
Proof.
  intros Hu Hv.
  assert (Hl : String.length u = String.length v)
    by now rewrite (is_uuid_length u Hu), (is_uuid_length v Hv).
  rewrite (tempPath_of_uuid u Hu), (tempPath_of_uuid v Hv),
    (scriptPath_of_uuid u Hu), (scriptPath_of_uuid v Hv),
    (screenshotPath_of_uuid u Hu), (screenshotPath_of_uuid v Hv).
  repeat split.
  - intros H. apply String.app_inj in H. now apply (app_cancel_r u v ".png").
  - intros H. apply String.app_inj in H.
    now apply (app_cancel_r u v ".applescript").
  - intros H. apply String.app_inj in H. now apply (app_cancel_r u v ".png").
  - intros H. apply (f_equal (String.get 5)) in H. discriminate H.
  - intros H. destruct (is_uuid_first u Hu) as (c & u' & -> & Hc).
    apply (f_equal (String.get 17)) in H.
    change (Some c = Some "s"%char) in H. injection H as ->. discriminate Hc.
  - intros H. apply (f_equal (String.get 5)) in H. discriminate H.
Qed.

Lemma generated_paths_never_collide_witness :
  tempPath_of uuid_a <> scriptPath_of uuid_b /\
  tempPath_of uuid_a <> screenshotPath_of uuid_b /\
  scriptPath_of uuid_a <> screenshotPath_of uuid_b.
Proof.
  exact (proj2 (proj2 (proj2
           (generated_paths_never_collide uuid_a uuid_b eq_refl eq_refl)))).
Defined.

Lemma uuid_unit_literal_safe c : uuid_unit c = true -> literal_safe c = true.
Proof. destruct c as [[] [] [] [] [] [] [] []]; vm_compute; congruence. Qed.

Lemma count_units_app P (a b : string) :
  count_units P (a +:+ b) = count_units P a + count_units P b.
Proof.
  induction a as [|c a IH]; [reflexivity|].
  rewrite app_String. cbn [count_units]. rewrite IH. lia.
Qed.

Lemma count_units_none P (s : string) :
  all_units P s = true -> count_units (fun c => negb (P c)) s = 0.
Proof.
  induction s as [|c s IH]; [reflexivity|].
  cbn [all_units count_units]. rewrite andb_true_iff. intros [-> Hs].
  now rewrite (IH Hs).
Qed.

(** X15: the path the first revision splices into the script (line 37)
    holds neither a double quote nor a backslash, so it cannot end or escape
    the literal it sits in: the script text has the six double quotes of the
    template and no backslash, whatever identifier was drawn. *)
Theorem spliced_path_is_literal_safe (u : string) :
  is_uuid u = true ->
  all_units literal_safe (tempPath_of u) = true /\
  count_units (fun c => negb (literal_safe c)) (V1.script (tempPath_of u)) = 6.
Proof.
  intros Hu.
  assert (Hsafe : all_units literal_safe (tempPath_of u) = true).
  { rewrite (tempPath_of_uuid u Hu), !all_units_app.
    rewrite (all_units_weaken uuid_unit literal_safe u uuid_unit_literal_safe
               (is_uuid_units u Hu)).
    reflexivity. }
  split; [exact Hsafe|].
  unfold V1.script. rewrite !count_units_app.
  rewrite (count_units_none literal_safe _ Hsafe). reflexivity.
Qed.

Lemma spliced_path_is_literal_safe_witness :
  all_units literal_safe (tempPath_of uuid_a) = true /\
  count_units (fun c => negb (literal_safe c)) (V1.script (tempPath_of uuid_a)) = 6.
Proof. exact (spliced_path_is_literal_safe uuid_a eq_refl). Defined.

(** ** What a whole run writes, starts and returns *)

Lemma started_app (t1 t2 : list event) :
  started (t1 ++ t2) = started t1 ++ started t2.
Proof. unfold started. apply flat_map_app. Qed.

Lemma guarded_unlink_quiet p w :
  exists l, trace (fst (guarded_unlink p w)) = trace w ++ l /\
            written l = [] /\ started l = [].
Proof.
  unfold guarded_unlink, try_catch, unlink, console_error.
  destruct (denied w (Unlink p)).
  - exists [Unlink p; ConsoleError ("Failed to cleanup temp file: " +:+ p)].
    cbn [fst trace record]. rewrite <- app_assoc. now repeat split.
  - destruct (FS.unlink (fs w) (cwd w) p).
    + exists [Unlink p]. now repeat split.
    + exists [Unlink p; ConsoleError ("Failed to cleanup temp file: " +:+ p)].
      cbn [fst trace record]. rewrite <- app_assoc. now repeat split.
Qed.

Lemma V1_cleanup_quiet p w :
  written (trace (fst (V1.cleanupTempFile p w))) = written (trace w) /\
  started (trace (fst (V1.cleanupTempFile p w))) = started (trace w) /\
  env (fst (V1.cleanupTempFile p w)) = env w.
Proof.
  rewrite V1_cleanup_gate. destruct (JS.startsWith p _); [|now repeat split].
  destruct (guarded_unlink_quiet p w) as (l & -> & Hw & Hs).
  rewrite written_app, started_app, Hw, Hs, !app_nil_r. repeat split.
  unfold guarded_unlink, try_catch, unlink, console_error.
  destruct (denied w _); [reflexivity|]. now destruct (FS.unlink _ _ _).
Qed.

Lemma V2_cleanup_quiet p w :
  written (trace (fst (V2.cleanupTempFile p w))) = written (trace w) /\
  started (trace (fst (V2.cleanupTempFile p w))) = started (trace w) /\
  env (fst (V2.cleanupTempFile p w)) = env w.
Proof.
  rewrite V2_cleanup_gate. destruct (_ && _); [|now repeat split].
  destruct (guarded_unlink_quiet p w) as (l & -> & Hw & Hs).
  rewrite written_app, started_app, Hw, Hs, !app_nil_r. repeat split.
  unfold guarded_unlink, try_catch, unlink, console_error.
  destruct (denied w _); [reflexivity|]. now destruct (FS.unlink _ _ _).
Qed.

Lemma V1_export_run w :
  V1.exportClipboardImage w =
    match V1.write_step w with
    | (w3, inl _) => (w3, inr None)
    | (w3, inr _) =>
        match V1.run_step w w3 with
        | (w4, inl _) =>
            (fst (V1.cleanupTempFile (scriptPath_of (second_id w)) w4), inr None)
        | (w4, inr stdout) =>
            (fst (V1.cleanupTempFile (scriptPath_of (second_id w))
                    (fst (V1.cleanupTempFile (scriptPath_of (second_id w)) w4))),
             inr (if String.eqb (JS.trim stdout) "success"
                  then Some (tempPath_of (first_id w)) else None))
        end
    end.
Proof.
  unfold V1.exportClipboardImage, V1.write_step, V1.run_step.
  unfold try_catch at 1. unfold bind at 1. unfold randomUUID at 1.
  unfold bind at 1. unfold randomUUID at 1.
  change (uuid_at (draw w) (uuid_drawn (draw w))) with (second_id w).
  change (uuid_at w (uuid_drawn w)) with (first_id w).
  fold (tempPath_of (first_id w)). fold (scriptPath_of (second_id w)).
  unfold bind at 1.
  destruct (writeFile _ _ _) as [w3 [e|[]]]; [reflexivity|].
  unfold try_finally, try_catch, bind.
  destruct (execFileAsync _ _ _ w3) as [w4 [e|stdout]].
  - destruct (V1_cleanup_total (scriptPath_of (second_id w)) w4) as [w5 ->].
    reflexivity.
  - destruct (String.eqb (JS.trim stdout) "success");
      destruct (V1_cleanup_total (scriptPath_of (second_id w)) w4) as [w5 ->];
      cbn [ret fst];
      destruct (V1_cleanup_total (scriptPath_of (second_id w)) w5) as [w6 ->];
      reflexivity.
Qed.

Lemma writeFile_env p data w : env (fst (writeFile p data w)) = env w.
Proof.
  unfold writeFile. destruct (denied w _); [reflexivity|].
  destruct (FS.writeFile _ _ _ _); reflexivity.
Qed.

Lemma writeFile_started p data w :
  started (trace (fst (writeFile p data w))) = started (trace w).
Proof. rewrite writeFile_trace, started_app. cbn. now rewrite app_nil_r. Qed.

Lemma execFileAsync_written c a o w :
  written (trace (fst (execFileAsync c a o w))) = written (trace w).
Proof. rewrite execFileAsync_trace, written_app. cbn. now rewrite app_nil_r. Qed.

(** X16: what is written to the script file.  Every run that reaches the
    export block hands exactly one text to [writeFile]: in the second
    revision always the same text, in the first the template with the
    destination path in it. *)
Theorem one_script_text_per_run (w : World) :
  reaches_export w = true ->
  written (trace (fst (V1.getClipboardImagePath w))) =
    written (trace w) ++ [V1.script (tempPath_of (first_id w))] /\
  written (trace (fst (V2.getClipboardImagePath w))) =
    written (trace w) ++ [V2.script].
Proof.
  intros Hr.
  assert (Hread : written (trace (record ClipboardRead w)) = written (trace w)).
  { cbn [record trace]. rewrite written_app. cbn. now rewrite app_nil_r. }
  rewrite (V1_reaches_export w Hr), (V2_reaches_export w Hr),
    V1_export_run, V2_export_run.
  split.
  - pose proof (writeFile_trace
                  (scriptPath_of (second_id (record ClipboardRead w)))
                  (V1.script (tempPath_of (first_id (record ClipboardRead w))))
                  (draw (draw (record ClipboardRead w)))) as Ht.
    fold (V1.write_step (record ClipboardRead w)) in Ht.
    apply (f_equal written) in Ht. rewrite written_app in Ht.
    change (trace (draw (draw (record ClipboardRead w))))
      with (trace (record ClipboardRead w)) in Ht.
    rewrite Hread in Ht.
    destruct (V1.write_step (record ClipboardRead w)) as [w3 [e|[]]];
      cbn [fst] in *; [exact Ht|].
    pose proof (execFileAsync_written "osascript"
                  [scriptPath_of (second_id (record ClipboardRead w))] None w3)
      as Hx.
    fold (V1.run_step (record ClipboardRead w) w3) in Hx.
    destruct (V1.run_step (record ClipboardRead w) w3) as [w4 [e|out]];
      cbn [fst] in *.
    + destruct (V1_cleanup_quiet
                  (scriptPath_of (second_id (record ClipboardRead w))) w4)
        as (-> & _). now rewrite Hx.
    + destruct (V1_cleanup_quiet
                  (scriptPath_of (second_id (record ClipboardRead w)))
                  (fst (V1.cleanupTempFile
                          (scriptPath_of (second_id (record ClipboardRead w))) w4)))
        as (-> & _).
      destruct (V1_cleanup_quiet
                  (scriptPath_of (second_id (record ClipboardRead w))) w4)
        as (-> & _). now rewrite Hx.
  - pose proof (writeFile_trace
                  (scriptPath_of (second_id (record ClipboardRead w)))
                  V2.script
                  (draw (draw (record ClipboardRead w)))) as Ht.
    fold (V2.write_step (record ClipboardRead w)) in Ht.
    apply (f_equal written) in Ht. rewrite written_app in Ht.
    change (trace (draw (draw (record ClipboardRead w))))
      with (trace (record ClipboardRead w)) in Ht.
    rewrite Hread in Ht.
    destruct (V2.write_step (record ClipboardRead w)) as [w3 [e|[]]];
      cbn [fst] in *; [exact Ht|].
    pose proof (execFileAsync_written "osascript"
                  [scriptPath_of (second_id (record ClipboardRead w))]
                  (Some (<["OCR_OUTPUT_PATH" :=
                             tempPath_of (first_id (record ClipboardRead w))]>
                           (env w3))) w3)
      as Hx.
    fold (V2.run_step (record ClipboardRead w) w3) in Hx.
    destruct (V2.run_step (record ClipboardRead w) w3) as [w4 [e|out]];
      cbn [fst] in *.
    + destruct (V2_cleanup_quiet
                  (scriptPath_of (second_id (record ClipboardRead w))) w4)
        as (-> & _). now rewrite Hx.
    + destruct (V2_cleanup_quiet
                  (scriptPath_of (second_id (record ClipboardRead w)))
                  (fst (V2.cleanupTempFile
                          (scriptPath_of (second_id (record ClipboardRead w))) w4)))
        as (-> & _).
      destruct (V2_cleanup_quiet
                  (scriptPath_of (second_id (record ClipboardRead w))) w4)
        as (-> & _). now rewrite Hx.
Qed.

Lemma one_script_text_per_run_witness :
  written (trace (fst (V1.getClipboardImagePath world_no_image))) =
    written (trace world_no_image) ++
    [V1.script (tempPath_of (first_id world_no_image))] /\
  written (trace (fst (V2.getClipboardImagePath world_no_image))) =
    written (trace world_no_image) ++ [V2.script].
Proof. exact (one_script_text_per_run world_no_image eq_refl). Defined.

Lemma execFileAsync_started c a o w :
  started (trace (fst (execFileAsync c a o w))) =
    started (trace w) ++ [(c, a, match o with Some e => e | None => env w end)].
Proof. rewrite execFileAsync_trace, started_app. reflexivity. Qed.

(** X17: how the interpreter is started.  A run that has written the script
    starts exactly one process: [osascript] with the script path as its only
    argument.  In the first revision its environment is the parent's; in the
    second it is the parent's with [OCR_OUTPUT_PATH] set to the destination
    path, whatever the parent had under that name. *)
Theorem interpreter_is_started_once (w : World) :
  reaches_export w = true ->
  (snd (V1.write_step (record ClipboardRead w)) = inr tt ->
   started (trace (fst (V1.getClipboardImagePath w))) =
     started (trace w) ++
     [("osascript", [scriptPath_of (second_id w)], env w)]) /\
  (snd (V2.write_step (record ClipboardRead w)) = inr tt ->
   started (trace (fst (V2.getClipboardImagePath w))) =
     started (trace w) ++
     [("osascript", [scriptPath_of (second_id w)],
       <["OCR_OUTPUT_PATH" := tempPath_of (first_id w)]> (env w))]).
Proof.
  intros Hr.
  assert (Hread : started (trace (record ClipboardRead w)) = started (trace w)).
  { cbn [record trace]. rewrite started_app. cbn. now rewrite app_nil_r. }
  rewrite (V1_reaches_export w Hr), (V2_reaches_export w Hr),
    V1_export_run, V2_export_run.
  split; intros Hw.
  - pose proof (writeFile_started
                  (scriptPath_of (second_id (record ClipboardRead w)))
                  (V1.script (tempPath_of (first_id (record ClipboardRead w))))
                  (draw (draw (record ClipboardRead w)))) as Ht.
    pose proof (writeFile_env
                  (scriptPath_of (second_id (record ClipboardRead w)))
                  (V1.script (tempPath_of (first_id (record ClipboardRead w))))
                  (draw (draw (record ClipboardRead w)))) as He.
    fold (V1.write_step (record ClipboardRead w)) in Ht, He.
    change (trace (draw (draw (record ClipboardRead w))))
      with (trace (record ClipboardRead w)) in Ht.
    change (env (draw (draw (record ClipboardRead w)))) with (env w) in He.
    rewrite Hread in Ht.
    destruct (V1.write_step (record ClipboardRead w)) as [w3 [e|[]]];
      [discriminate|]. cbn [fst] in *.
    pose proof (execFileAsync_started "osascript"
                  [scriptPath_of (second_id (record ClipboardRead w))] None w3)
      as Hx.
    fold (V1.run_step (record ClipboardRead w) w3) in Hx.
    rewrite Ht, He in Hx.
    destruct (V1.run_step (record ClipboardRead w) w3) as [w4 [e|out]];
      cbn [fst] in *.
    + destruct (V1_cleanup_quiet
                  (scriptPath_of (second_id (record ClipboardRead w))) w4)
        as (_ & -> & _). exact Hx.
    + destruct (V1_cleanup_quiet
                  (scriptPath_of (second_id (record ClipboardRead w)))
                  (fst (V1.cleanupTempFile
                          (scriptPath_of (second_id (record ClipboardRead w))) w4)))
        as (_ & -> & _).
      destruct (V1_cleanup_quiet
                  (scriptPath_of (second_id (record ClipboardRead w))) w4)
        as (_ & -> & _). exact Hx.
  - pose proof (writeFile_started
                  (scriptPath_of (second_id (record ClipboardRead w)))
                  V2.script
                  (draw (draw (record ClipboardRead w)))) as Ht.
    pose proof (writeFile_env
                  (scriptPath_of (second_id (record ClipboardRead w)))
                  V2.script
                  (draw (draw (record ClipboardRead w)))) as He.
    fold (V2.write_step (record ClipboardRead w)) in Ht, He.
    change (trace (draw (draw (record ClipboardRead w))))
      with (trace (record ClipboardRead w)) in Ht.
    change (env (draw (draw (record ClipboardRead w)))) with (env w) in He.
    rewrite Hread in Ht.
    destruct (V2.write_step (record ClipboardRead w)) as [w3 [e|[]]];
      [discriminate|]. cbn [fst] in *.
    pose proof (execFileAsync_started "osascript"
                  [scriptPath_of (second_id (record ClipboardRead w))]
                  (Some (<["OCR_OUTPUT_PATH" :=
                             tempPath_of (first_id (record ClipboardRead w))]>
                           (env w3))) w3)
      as Hx.
    fold (V2.run_step (record ClipboardRead w) w3) in Hx.
    rewrite Ht, He in Hx.
    destruct (V2.run_step (record ClipboardRead w) w3) as [w4 [e|out]];
      cbn [fst] in *.
    + destruct (V2_cleanup_quiet
                  (scriptPath_of (second_id (record ClipboardRead w))) w4)
        as (_ & -> & _). exact Hx.
    + destruct (V2_cleanup_quiet
                  (scriptPath_of (second_id (record ClipboardRead w)))
                  (fst (V2.cleanupTempFile
                          (scriptPath_of (second_id (record ClipboardRead w))) w4)))
        as (_ & -> & _).
      destruct (V2_cleanup_quiet
                  (scriptPath_of (second_id (record ClipboardRead w))) w4)
        as (_ & -> & _). exact Hx.
Qed.

Lemma interpreter_is_started_once_witness :
  started (trace (fst (V1.getClipboardImagePath world_image))) =
    started (trace world_image) ++
    [("osascript", [scriptPath_of (second_id world_image)], env world_image)] /\
  started (trace (fst (V2.getClipboardImagePath world_image))) =
    started (trace world_image) ++
    [("osascript", [scriptPath_of (second_id world_image)],
      <["OCR_OUTPUT_PATH" := tempPath_of (first_id world_image)]>
        (env world_image))].
Proof.
  split.
  - apply (proj1 (interpreter_is_started_once world_image eq_refl)).
    vm_compute; reflexivity.
  - apply (proj2 (interpreter_is_started_once world_image eq_refl)).
    vm_compute; reflexivity.
Defined.

(** X18: whatever [getClipboardImagePath] returns passes its own image test.
    A returned path is the clipboard's file path, which was tested at line
    23, or the generated destination, which ends in [.png]. *)
Theorem returned_path_is_an_image (w : World) (p : string) :
  is_uuid (first_id w) = true ->
  (snd (V1.getClipboardImagePath w) = inr (Some p) -> isImage p = true) /\
  (snd (V2.getClipboardImagePath w) = inr (Some p) -> isImage p = true).
Proof.
  intros Hu.
  unfold V1.getClipboardImagePath, V2.getClipboardImagePath, bind, Clipboard_read.
  destruct (clipboard w) as [e|c]; [split; discriminate|].
  assert (H1 : snd (V1.exportClipboardImage (record ClipboardRead w)) = inr (Some p) ->
               isImage p = true).
  { destruct (V1_export_shape (record ClipboardRead w)) as [-> | ->];
      [discriminate|].
    intros [= <-]. now apply tempPath_is_image. }
  assert (H2 : snd (V2.exportClipboardImage (record ClipboardRead w)) = inr (Some p) ->
               isImage p = true).
  { destruct (V2_export_shape (record ClipboardRead w)) as [-> | ->];
      [discriminate|].
    intros [= <-]. now apply tempPath_is_image. }
  destruct (JS.truthy (file c)) as [q|]; [|now split].
  destruct (isImage q) eqn:Hq; [|now split].
  split; cbn [snd ret]; now intros [= <-].
Qed.

Lemma returned_path_is_an_image_witness :
  isImage "/Users/me/Pictures/Cat.PNG" = true /\
  isImage (tempPath_of uuid_a) = true.
Proof.
  split.
  - apply (proj1 (returned_path_is_an_image
                    (world_copied "/Users/me/Pictures/Cat.PNG")
                    "/Users/me/Pictures/Cat.PNG" eq_refl)).
    reflexivity.
  - apply (proj2 (returned_path_is_an_image world_image (tempPath_of uuid_a)
                    eq_refl)).
    vm_compute; reflexivity.
Defined.

(** X19: the textual test of line 201 catches every real traversal: a path
    one of whose segments is [..] is left alone by the second revision,
    wherever in the path that segment stands. *)
Theorem parent_segment_is_rejected (p : string) (w : World) :
  existsb (String.eqb "..") (Path.segments p) = true ->
  V2.cleanupTempFile p w = (w, inr tt).
Proof.
  intros H. apply existsb_exists in H as (x & Hin & Hx).
  apply String.eqb_eq in Hx. subst x.
  apply V2_traversal_rejected. now apply segments_included.
Qed.

Lemma parent_segment_is_rejected_witness :
  V2.cleanupTempFile "/tmp/raycast-ocr-x/../../etc/passwd" world_planted =
    (world_planted, inr tt).
Proof.
  exact (parent_segment_is_rejected "/tmp/raycast-ocr-x/../../etc/passwd"
           world_planted eq_refl).
Defined.
